(** * Level Blueprint backend: the POST /api/level-blueprint handler

    A shallow embedding of the two variants of the service
    ([src/server.js], the variant with Level Layout Data, and
    [src/unnamed/part_000], the variant without) and the properties of
    the request/response contract.

    - JavaScript strings are sequences of UTF-16 code units ([jsstring]).
    - JSON values as [JSON.parse] produces them are the inductive [value];
      an absent property reads as [JUndefined].
    - The body of the [try] block is a computation in a small monad that
      threads the list of outbound calls made so far and may throw; the
      [catch] clause turns a thrown error into the 500 response.
    - The traces written with [console.error] are not part of the model. *)

From Stdlib Require Import List ZArith NArith String Ascii Bool Lia QArith.
From Stdlib Require Import DecimalString DecimalPos.
Import ListNotations.

Set Warnings "-register-all".

Local Open Scope Z_scope.

(* ------------------------------------------------------------------ *)
(** ** Strings *)

Definition code_unit := N.
Definition jsstring := list code_unit.

(** Decoding of the UTF-8 bytes of a literal of this file into UTF-16
    code units (one unit up to U+FFFF, a surrogate pair above). *)
Fixpoint utf8_decode (l : list N) : jsstring :=
  match l with
  | [] => []
  | b0 :: t0 =>
    if (b0 <? 128)%N then b0 :: utf8_decode t0
    else match t0 with
    | [] => [b0]
    | b1 :: t1 =>
      if (b0 <? 224)%N
      then ((b0 - 192) * 64 + (b1 - 128))%N :: utf8_decode t1
      else match t1 with
      | [] => [b0; b1]
      | b2 :: t2 =>
        if (b0 <? 240)%N
        then ((b0 - 224) * 4096 + (b1 - 128) * 64 + (b2 - 128))%N
               :: utf8_decode t2
        else match t2 with
        | [] => [b0; b1; b2]
        | b3 :: t3 =>
          let cp := ((b0 - 240) * 262144 + (b1 - 128) * 4096
                     + (b2 - 128) * 64 + (b3 - 128))%N in
          let v := (cp - 65536)%N in
          (55296 + v / 1024)%N :: (56320 + v mod 1024)%N :: utf8_decode t3
        end
      end
    end
  end.

Definition hex_digit (c : N) : N :=
  if ((48 <=? c) && (c <=? 57))%N then (c - 48)%N
  else if ((97 <=? c) && (c <=? 102))%N then (c - 87)%N
  else if ((65 <=? c) && (c <=? 70))%N then (c - 55)%N
  else 0%N.

(** The escapes of a JavaScript literal that the sources use: a backslash
    before a character stands for that character (the sources write
    backslash-backtick inside template literals), and [\xHH] for the code
    unit with that hexadecimal number. *)
Fixpoint cook (l : jsstring) : jsstring :=
  match l with
  | [] => []
  | c :: t =>
    if (c =? 92)%N then
      match t with
      | [] => [c]
      | e :: t1 =>
        if (e =? 120)%N then
          match t1 with
          | h1 :: h2 :: t3 => (16 * hex_digit h1 + hex_digit h2)%N :: cook t3
          | _ => e :: cook t1
          end
        else e :: cook t1
      end
    else c :: cook t
  end.

(** A literal of the source as a JavaScript string value. *)
Definition js (s : string) : jsstring :=
  cook (utf8_decode (map N_of_ascii (list_ascii_of_string s))).

(** WhiteSpace and LineTerminator code units, as [String.prototype.trim]
    and [parseInt] strip them. *)
Definition is_ws (c : code_unit) : bool :=
  ((c =? 9) || (c =? 10) || (c =? 11) || (c =? 12) || (c =? 13) || (c =? 32)
   || (c =? 160) || (c =? 5760) || ((8192 <=? c) && (c <=? 8202))
   || (c =? 8232) || (c =? 8233) || (c =? 8239) || (c =? 8287)
   || (c =? 12288) || (c =? 65279))%N.

Fixpoint trimStart (s : jsstring) : jsstring :=
  match s with
  | [] => []
  | c :: t => if is_ws c then trimStart t else s
  end.

Definition trimEnd (s : jsstring) : jsstring := rev (trimStart (rev s)).

Definition trim (s : jsstring) : jsstring := trimEnd (trimStart s).

(** [s.includes(needle)] as a proposition. *)
Definition contains (needle s : jsstring) : Prop :=
  exists pre post, s = pre ++ needle ++ post.

Definition jsstring_eqb (a b : jsstring) : bool :=
  if list_eq_dec N.eq_dec a b then true else false.

(* ------------------------------------------------------------------ *)
(** ** Values *)

(** The values a parsed JSON body can hold, plus [undefined] for a
    property that is absent.  [JNum z] is a number with the integer value
    [z] (of magnitude below 10^21, where Number::toString is the plain
    decimal numeral); every other finite number is [JNumR r], [r] being its
    Number::toString rendering (a fraction or an exponent form): such a
    number is never zero, and the handler observes a number only through
    ToBoolean and ToString. *)
Inductive value : Type :=
| JUndefined
| JNull
| JBool (b : bool)
| JNum (z : Z)
| JNumR (rendering : jsstring)
| JStr (s : jsstring)
| JArr (elems : list value)
| JObj (props : list (jsstring * value)).

Inductive exn : Type :=
| TypeError (message : jsstring)
| SyntaxError (message : jsstring)
| FetchError (message : jsstring).

Definition exn_message (e : exn) : jsstring :=
  match e with
  | TypeError m | SyntaxError m | FetchError m => m
  end.

Inductive result (A : Type) : Type :=
| Ok (a : A)
| Throw (e : exn).
Arguments Ok {A} a.
Arguments Throw {A} e.

Definition rbind {A B} (r : result A) (k : A -> result B) : result B :=
  match r with
  | Ok a => k a
  | Throw e => Throw e
  end.

Declare Scope result_scope.
Delimit Scope result_scope with result.
Notation "'let?' x := r 'in' k" := (rbind r (fun x => k))
  (at level 10, x name, r at level 100, k at level 200) : result_scope.

(** ToBoolean. *)
Definition truthy (v : value) : bool :=
  match v with
  | JUndefined | JNull => false
  | JBool b => b
  | JNum z => negb (z =? 0)
  | JNumR _ => true
  | JStr s => match s with [] => false | _ => true end
  | JArr _ | JObj _ => true
  end.

Definition nullish (v : value) : bool :=
  match v with
  | JUndefined | JNull => true
  | _ => false
  end.

(** Number::toString of an integer-valued number. *)
Definition Z_toString (z : Z) : jsstring :=
  map N_of_ascii (list_ascii_of_string (NilZero.string_of_int (Z.to_int z))).

Fixpoint has_key (k : jsstring) (props : list (jsstring * value)) : bool :=
  match props with
  | [] => false
  | (k', _) :: rest => jsstring_eqb k k' || has_key k rest
  end.

Definition no_primitive : exn :=
  TypeError (js "Cannot convert object to primitive value").

(** ToString.  An array joins the strings of its elements with commas,
    [null] and [undefined] elements giving the empty string.  A plain
    object gives "[object Object]" through [Object.prototype.toString],
    unless the parsed JSON gave it an own [toString] property: that one is
    not callable, [valueOf] returns no primitive, and the conversion
    throws. *)
Fixpoint toString (v : value) : result jsstring :=
  match v with
  | JUndefined => Ok (js "undefined")
  | JNull => Ok (js "null")
  | JBool true => Ok (js "true")
  | JBool false => Ok (js "false")
  | JNum z => Ok (Z_toString z)
  | JNumR r => Ok r
  | JStr s => Ok s
  | JArr elems =>
    (fix join (l : list value) : result jsstring :=
       match l with
       | [] => Ok []
       | x :: rest =>
         let elem := match x with
                     | JUndefined | JNull => Ok []
                     | _ => toString x
                     end in
         match rest with
         | [] => elem
         | _ :: _ =>
           match elem with
           | Throw e => Throw e
           | Ok s =>
             match join rest with
             | Throw e => Throw e
             | Ok r => Ok (s ++ js "," ++ r)
             end
           end
         end
       end) elems
  | JObj props =>
    if has_key (js "toString") props then Throw no_primitive
    else Ok (js "[object Object]")
  end.

(* ------------------------------------------------------------------ *)
(** ** parseInt(_, 10), the [||] default and the clamp *)

Definition is_digit (c : code_unit) : bool := ((48 <=? c) && (c <=? 57))%N.

(** The value of the longest prefix of decimal digits, with the number of
    digits read ([acc] is the value read so far). *)
Fixpoint digits_prefix (s : jsstring) (acc : Z) (n : nat) : Z * nat :=
  match s with
  | [] => (acc, n)
  | c :: t =>
    if is_digit c then digits_prefix t (10 * acc + Z.of_N (c - 48)) (S n)
    else (acc, n)
  end.

(** [parseInt(s, 10)]; [None] is NaN. *)
Definition parseInt (s : jsstring) : option Z :=
  let S0 := trimStart s in
  let '(sign, S1) :=
    match S0 with
    | c :: t => if (c =? 45)%N then (-1, t)
                else if (c =? 43)%N then (1, t) else (1, S0)
    | [] => (1, S0)
    end in
  match digits_prefix S1 0 0 with
  | (_, O) => None
  | (m, _) => Some (sign * m)
  end.

(** [n || 1] on a number: NaN and zero are falsy. *)
Definition or_one (n : option Z) : Z :=
  match n with
  | None => 1
  | Some 0 => 1
  | Some z => z
  end.

(** [Math.min(Math.max(parseInt(count, 10) || 1, 1), 10)] *)
Definition safeCount (count : value) : result Z :=
  (let? s := toString count in
   Ok (Z.min (Z.max (or_one (parseInt s)) 1) 10))%result.

(* ------------------------------------------------------------------ *)
(** ** Property access *)

Fixpoint lookup_last (k : jsstring) (props : list (jsstring * value))
  : option value :=
  match props with
  | [] => None
  | (k', v) :: rest =>
    match lookup_last k rest with
    | Some w => Some w
    | None => if jsstring_eqb k k' then Some v else None
    end
  end.

(** A property key that is a canonical array index. *)
Definition index_of_key (k : jsstring) : option nat :=
  match k with
  | [] => None
  | c :: t =>
    if ((c =? 48)%N && negb (match t with [] => true | _ => false end))%bool
    then None
    else match digits_prefix k 0 0 with
         | (m, n) => if Nat.eqb n (List.length k) then Some (Z.to_nat m)
                     else None
         end
  end.

(** [v[k]] for a value that is neither [null] nor [undefined].  A parsed
    object has its own properties (for a repeated key [JSON.parse] keeps
    the last one); arrays and strings have indices and [length].  The
    properties of the built-in prototypes are left out: the handler reads
    [choices], [0], [message] and [content], which none of them has. *)
Definition get_prop (v : value) (k : jsstring) : value :=
  match v with
  | JObj props =>
    match lookup_last k props with Some w => w | None => JUndefined end
  | JArr elems =>
    if jsstring_eqb k (js "length") then JNum (Z.of_nat (List.length elems))
    else match index_of_key k with
         | Some i => nth i elems JUndefined
         | None => JUndefined
         end
  | JStr s =>
    if jsstring_eqb k (js "length") then JNum (Z.of_nat (List.length s))
    else match index_of_key k with
         | Some i => match nth_error s i with
                     | Some c => JStr [c]
                     | None => JUndefined
                     end
         | None => JUndefined
         end
  | _ => JUndefined
  end.

(** [v.k]: reading a property of [null] or [undefined] throws. *)
Definition get (v : value) (k : jsstring) : result value :=
  match v with
  | JUndefined =>
    Throw (TypeError (js "Cannot read properties of undefined (reading '"
                      ++ k ++ js "')"))
  | JNull =>
    Throw (TypeError (js "Cannot read properties of null (reading '"
                      ++ k ++ js "')"))
  | _ => Ok (get_prop v k)
  end.

(** [v?.k]: [None] short-circuits the rest of the chain. *)
Definition opt_get (v : value) (k : jsstring) : option value :=
  if nullish v then None else Some (get_prop v k).

(** [v.trim()], [name] being the expression the source calls it on. *)
Definition trim_method (name : jsstring) (v : value) : result jsstring :=
  match v with
  | JStr s => Ok (trim s)
  | JUndefined =>
    Throw (TypeError (js "Cannot read properties of undefined (reading 'trim')"))
  | JNull =>
    Throw (TypeError (js "Cannot read properties of null (reading 'trim')"))
  | _ => Throw (TypeError (name ++ js ".trim is not a function"))
  end.

(** [a || b] on values. *)
Definition or_else (a b : value) : value := if truthy a then a else b.

(* ------------------------------------------------------------------ *)
(** ** Requests, responses and the outbound call *)

(** [req.body], as the ten names the handler destructures from it. *)
Record Body : Type := mkBody {
  apiKey : value;
  genre : value;
  camera : value;
  stagePosition : value;
  playtime : value;
  difficulty : value;
  focus : value;
  themeKeywords : value;
  count : value;
  extraNotes : value
}.

(** [res.status(s).json(o)]; [res.json(o)] has status 200. *)
Record Response : Type := mkResponse {
  status : Z;
  payload : value
}.

Record Message : Type := mkMessage {
  role : jsstring;
  content : jsstring
}.

(** The object given to [JSON.stringify] for the body of the call. *)
Record Completion : Type := mkCompletion {
  model : jsstring;
  messages : list Message;
  temperature : Q;
  max_tokens : Z
}.

Record OutboundCall : Type := mkCall {
  url : jsstring;
  method : jsstring;
  headers : list (jsstring * jsstring);
  body : Completion
}.

(** What the handler reads of the upstream response: [ok], [await text()]
    and [await json()]. *)
Record FetchResponse : Type := mkFetchResponse {
  ok : bool;
  text : result jsstring;
  json : result value
}.

(** The upstream: what [await fetch(...)] gives for a call (a rejected
    promise is a [Throw]). *)
Definition Upstream : Type := OutboundCall -> result FetchResponse.

(* ------------------------------------------------------------------ *)
(** ** The monad of the try block: outbound calls made so far, and errors *)

Definition M (A : Type) : Type :=
  list OutboundCall -> result A * list OutboundCall.

Definition ret {A} (a : A) : M A := fun log => (Ok a, log).

Definition bind {A B} (m : M A) (k : A -> M B) : M B :=
  fun log =>
    match m log with
    | (Ok a, log') => k a log'
    | (Throw e, log') => (Throw e, log')
    end.

Definition lift {A} (r : result A) : M A := fun log => (r, log).

Definition await_fetch (fetch : Upstream) (c : OutboundCall)
  : M FetchResponse :=
  fun log => (fetch c, log ++ [c]).

Declare Scope handler_scope.
Delimit Scope handler_scope with handler.
Notation "x <- m ;; k" := (bind m (fun x => k))
  (at level 61, m at next level, right associativity) : handler_scope.

(** The [catch] clause. *)
Definition server_error (err : exn) : Response :=
  mkResponse 500 (JObj [(js "error", JStr (js "Server error"));
                        (js "detail", JStr (exn_message err))]).

Definition run_handler (try_block : M Response) : Response * list OutboundCall :=
  match try_block [] with
  | (Ok r, log) => (r, log)
  | (Throw err, log) => (server_error err, log)
  end.


(* ------------------------------------------------------------------ *)
(** ** What the two handlers compute with *)

(** [extraNotes && extraNotes.trim().length > 0 ? extraNotes.trim()
     : "No additional notes."], converted to a string by the template. *)
Definition extra_notes (extraNotes : value) : result jsstring :=
  (if truthy extraNotes then
     let? t := trim_method (js "extraNotes") extraNotes in
     if (0 <? Z.of_nat (List.length t)) then
       trim_method (js "extraNotes") extraNotes
     else Ok (js "No additional notes.")
   else Ok (js "No additional notes."))%result.

(** [data.choices?.[0]?.message?.content || ""] *)
Definition extract_content (data : value) : result value :=
  (let? choices := get data (js "choices") in
   Ok (or_else
         (match opt_get choices (js "0") with
          | None => JUndefined
          | Some first =>
            match opt_get first (js "message") with
            | None => JUndefined
            | Some message =>
              match opt_get message (js "content") with
              | None => JUndefined
              | Some c => c
              end
            end
          end)
         (JStr [])))%result.

(* ------------------------------------------------------------------ *)
(** ** src/server.js: the variant with Level Layout Data *)

Module ServerJs.

Definition SYSTEM_PROMPT : jsstring := js "
You are a senior game level designer and lead designer mentor.
Your job is to generate *production-ready* level blueprints for indie / AA teams.

GOAL:
For each request, you will generate 1–10 level ideas.
Each level idea must be a \x22Level Blueprint\x22 that an actual team could prototype
within 5–14 days, not a vague concept sentence.

The buyer of this tool expects:
- Professional tone and clear structure
- Practical scope for small teams
- Explicit notes that programmers / artists / QA can use
- A bit of creative flavor, but no meaningless buzzwords

OUTPUT FORMAT:
Respond in Markdown. For each level, use this structure exactly:

## Level {N}: {Short Level Title}

### 1. Level Summary
- Genre:
- Camera:
- Recommended Stage Position: (Tutorial / Early / Mid / Late / Endgame)
- Target Playtime:
- Player Fantasy: (one sentence that captures the emotional fantasy)
- Design Pillars: (2–3 short bullet points that define the core experience)

### 2. Core Objective & Failure
- Primary Objective:
- Secondary/Optional Objectives:
- Fail Conditions:

### 3. Layout & Flow
- Layout Archetype: (e.g., Linear Corridor / Hub & Spoke / Looping Route / Branching / Arena)
- Zones:
  - Zone A (Intro / Warm-up):
  - Zone B (Main Challenge):
  - Zone C (Climax / Boss / Final Push):
  - Zone D (Cool-down / Reward Area) [optional]
- Flow Steps:
  1. ...
  2. ...
  3. ...
  4. ...

### 4. Difficulty & Pacing
- Difficulty Curve: (describe Warm-up → Spike → Recovery → Climax)
- Pacing Notes: (combat/exploration/puzzle ratio, tension → release rhythm)
- Target Player Profile: (who this level is tuned for: casual / experienced / expert)

### 5. Mechanics, Enemies & Hazards
- Core Mechanics Focus: (movement, dash, parry, stealth, platforming, etc.)
- Enemy / Hazard Roles:
  - Chaser:
  - Sniper:
  - Bruiser:
  - Support / Controller:
- Environmental Gimmicks:
- Suggested Combos of Mechanics + Gimmicks:

### 6. Rewards & Optional Content
- Main Rewards:
- Optional / Secret Areas:
- Risk–Reward Notes:

### 7. Narrative & Environment
- Narrative Hook: (what story/feeling this level conveys)
- Environmental Storytelling Ideas: (props, destroyed objects, notes, signs, etc.)
- Optional Dialogue / VO Hooks: (1–3 short example lines, if relevant)

### 8. Scope & Production Notes
- Estimated Asset Requirements:
  - New Enemy Types:
  - New Gimmicks:
  - New Environment Pieces:
- Estimated Solo Dev Time: (rough days for a prototype)
- Scope Risk Notes: (what to cut first if time is short)
- Reuse Opportunities: (what can be reused from previous levels or packs)

### 9. Playtest Checklist
- Clarity:
- Fairness:
- Pacing:
- Performance / Technical:

### 10. Design Notes for Dev Team
- Tuning Tips: (how to adjust difficulty / pacing quickly)
- Implementation Risks: (what could break or take unexpectedly long)
- Recommended Prototype Order: (what to build first when time is limited)

### 11. Level Layout Data (for Visualizer)
After all design notes, add a machine-readable layout block for each level
using the following JSON schema, inside a fenced code block labeled \`level-json\`.

" ++ js "Example format (adapt this to each specific level):

\`\`\`level-json
{
  \x22specVersion\x22: \x221.0\x22,
  \x22theme\x22: \x22toy_factory\x22,
  \x22flowType\x22: \x22linear\x22,
  \x22rooms\x22: [
    {
      \x22id\x22: \x22R1\x22,
      \x22label\x22: \x22Start Alley\x22,
      \x22type\x22: \x22spawn\x22,
      \x22x\x22: 0,
      \x22y\x22: 0,
      \x22w\x22: 4,
      \x22h\x22: 3
    },
    {
      \x22id\x22: \x22R2\x22,
      \x22label\x22: \x22Main Corridor Loop\x22,
      \x22type\x22: \x22combat\x22,
      \x22x\x22: 6,
      \x22y\x22: 0,
      \x22w\x22: 6,
      \x22h\x22: 4
    },
    {
      \x22id\x22: \x22R3\x22,
      \x22label\x22: \x22Courtyard Arena\x22,
      \x22type\x22: \x22boss\x22,
      \x22x\x22: 14,
      \x22y\x22: 0,
      \x22w\x22: 7,
      \x22h\x22: 5
    }
  ],
  \x22connections\x22: [
    {
      \x22from\x22: \x22R1\x22,
      \x22to\x22: \x22R2\x22,
      \x22type\x22: \x22corridor\x22
    },
    {
      \x22from\x22: \x22R2\x22,
      \x22to\x22: \x22R3\x22,
      \x22type\x22: \x22arena_gate\x22
    }
  ]
}
\`\`\`

RULES FOR LAYOUT DATA:
- Always include this \`Level Layout Data (for Visualizer)\` section for every level.
- Use integer grid coordinates for x, y, w, h (small values like 0–30).
- Place rooms so they roughly reflect the described flow and do not heavily overlap.
- Use usually 4–10 rooms per level (can be fewer if the level is intentionally tiny).
- \x22theme\x22 should be a short token-like string that reflects the setting,
  for example: \x22toy_factory\x22, \x22abandoned_lab\x22, \x22gothic_dungeon\x22, \x22industrial_factory\x22.
- \x22flowType\x22 should match the Layout Archetype when possible:
  - linear, branching, loop, hub, arena, semilinear, etc.
- \x22type\x22 for rooms should be chosen from:
  - spawn, combat, puzzle, hub, boss, treasure, corridor, safe, checkpoint.

RULES:
- Always respect the requested genre, camera type, difficulty target and focus.
- Ideas must be implementable in common engines (Unity/Unreal/Godot/RPG Maker).
- Avoid overcomplicated systems that would kill solo dev scope.
- Keep language concise but concrete: no vague buzzwords.
- When \x22creative direction / extra notes\x22 are provided, align the tone, pacing and motifs with them.
".

(** The template literal of [userPrompt], then [.trim()]. *)
Definition userPrompt (b : Body) (safeCount : Z) : result jsstring :=
  (let? genre_s := toString (genre b) in
   let? camera_s := toString (camera b) in
   let? stagePosition_s := toString (stagePosition b) in
   let? playtime_s := toString (playtime b) in
   let? difficulty_s := toString (difficulty b) in
   let? focus_s := toString (focus b) in
   let? theme_s := toString (or_else (themeKeywords b) (JStr (js "none"))) in
   let? notes_s := extra_notes (extraNotes b) in
   Ok (trim (js "
Generate " ++ Z_toString safeCount ++ js " level blueprints.

Game context:
- Genre: " ++ genre_s ++ js "
- Camera: " ++ camera_s ++ js "
- Target stage position: " ++ stagePosition_s ++ js "
- Target playtime: " ++ playtime_s ++ js "
- Target difficulty: " ++ difficulty_s ++ js "
- Primary focus: " ++ focus_s ++ js "
- Theme / setting keywords: " ++ theme_s ++ js "

Creative direction / extra notes from the designer:
" ++ notes_s ++ js "

Constraints:
- The blueprints should be suitable for an indie or small team.
- Each level should feel distinct from the others.
- Use the output structure defined in the system prompt.
- Keep the tone professional (for internal design docs), but still readable.
- For every level, you MUST also include the 'Level Layout Data (for Visualizer)'
  section at the end, with a valid \`level-json\` block that approximates a
  top-down layout of the described level.
")))%result.

Definition try_block (fetch : Upstream) (b : Body) : M Response :=
  (blank <- lift (if negb (truthy (apiKey b)) then Ok true
                  else (let? t := trim_method (js "apiKey") (apiKey b) in
                        Ok (negb (truthy (JStr t))))%result) ;;
   if blank : bool then
     ret (mkResponse 400
            (JObj [(js "error", JStr (js "No API key provided"));
                   (js "message",
                    JStr (js "Please send your OpenAI API key in the 'apiKey' field."))]))
   else if negb (truthy (genre b)) || negb (truthy (camera b))
           || negb (truthy (stagePosition b)) || negb (truthy (playtime b))
           || negb (truthy (difficulty b)) || negb (truthy (focus b))
           || negb (truthy (count b)) then
     ret (mkResponse 400
            (JObj [(js "error", JStr (js "Missing required fields"))]))
   else
     safeCount <- lift (safeCount (count b)) ;;
     userPrompt <- lift (userPrompt b safeCount) ;;
     key <- lift (trim_method (js "apiKey") (apiKey b)) ;;
     apiResponse <- await_fetch fetch
       (mkCall (js "https://api.openai.com/v1/chat/completions")
               (js "POST")
               [(js "Authorization", js "Bearer " ++ key);
                (js "Content-Type", js "application/json")]
               (mkCompletion (js "gpt-4o-mini")
                             [mkMessage (js "system") SYSTEM_PROMPT;
                              mkMessage (js "user") userPrompt]
                             0.7
                             2800)) ;;
     if negb (ok apiResponse) then
       errorText <- lift (text apiResponse) ;;
       ret (mkResponse 500
              (JObj [(js "error", JStr (js "OpenAI API error"));
                     (js "detail", JStr errorText)]))
     else
       data <- lift (json apiResponse) ;;
       content <- lift (extract_content data) ;;
       ret (mkResponse 200 (JObj [(js "content", content)])))%handler.

(** [app.post("/api/level-blueprint", ...)]: the response sent and the
    outbound calls made. *)
Definition handler (fetch : Upstream) (b : Body)
  : Response * list OutboundCall :=
  run_handler (try_block fetch b).

End ServerJs.

(* ------------------------------------------------------------------ *)
(** ** src/unnamed/part_000: the variant without layout data *)

Module Part000.

Definition SYSTEM_PROMPT : jsstring := js "
You are a senior game level designer and lead designer mentor.
Your job is to generate *production-ready* level blueprints for indie / AA teams.

GOAL:
For each request, you will generate 1–10 level ideas.
Each level idea must be a \x22Level Blueprint\x22 that an actual team could prototype
within 5–14 days, not a vague concept sentence.

The buyer of this tool expects:
- Professional tone and clear structure
- Practical scope for small teams
- Explicit notes that programmers / artists / QA can use
- A bit of creative flavor, but no meaningless buzzwords

OUTPUT FORMAT:
Respond in Markdown. For each level, use this structure exactly:

## Level {N}: {Short Level Title}

### 1. Level Summary
- Genre:
- Camera:
- Recommended Stage Position: (Tutorial / Early / Mid / Late / Endgame)
- Target Playtime:
- Player Fantasy: (one sentence that captures the emotional fantasy)
- Design Pillars: (2–3 short bullet points that define the core experience)

### 2. Core Objective & Failure
- Primary Objective:
- Secondary/Optional Objectives:
- Fail Conditions:

### 3. Layout & Flow
- Layout Archetype: (e.g., Linear Corridor / Hub & Spoke / Looping Route / Branching / Arena)
- Zones:
  - Zone A (Intro / Warm-up):
  - Zone B (Main Challenge):
  - Zone C (Climax / Boss / Final Push):
  - Zone D (Cool-down / Reward Area) [optional]
- Flow Steps:
  1. ...
  2. ...
  3. ...
  4. ...

### 4. Difficulty & Pacing
- Difficulty Curve: (describe Warm-up → Spike → Recovery → Climax)
- Pacing Notes: (combat/exploration/puzzle ratio, tension → release rhythm)
- Target Player Profile: (who this level is tuned for: casual / experienced / expert)

### 5. Mechanics, Enemies & Hazards
- Core Mechanics Focus: (movement, dash, parry, stealth, platforming, etc.)
- Enemy / Hazard Roles:
  - Chaser:
  - Sniper:
  - Bruiser:
  - Support / Controller:
- Environmental Gimmicks:
- Suggested Combos of Mechanics + Gimmicks:

### 6. Rewards & Optional Content
- Main Rewards:
- Optional / Secret Areas:
- Risk–Reward Notes:

### 7. Narrative & Environment
- Narrative Hook: (what story/feeling this level conveys)
- Environmental Storytelling Ideas: (props, destroyed objects, notes, signs, etc.)
- Optional Dialogue / VO Hooks: (1–3 short example lines, if relevant)

### 8. Scope & Production Notes
- Estimated Asset Requirements:
  - New Enemy Types:
  - New Gimmicks:
  - New Environment Pieces:
- Estimated Solo Dev Time: (rough days for a prototype)
- Scope Risk Notes: (what to cut first if time is short)
- Reuse Opportunities: (what can be reused from previous levels or packs)

### 9. Playtest Checklist
- Clarity:
- Fairness:
- Pacing:
- Performance / Technical:

### 10. Design Notes for Dev Team
- Tuning Tips: (how to adjust difficulty / pacing quickly)
- Implementation Risks: (what could break or take unexpectedly long)
- Recommended Prototype Order: (what to build first when time is limited)

RULES:
- Always respect the requested genre, camera type, difficulty target and focus.
- Ideas must be implementable in common engines (Unity/Unreal/Godot/RPG Maker).
- Avoid overcomplicated systems that would kill solo dev scope.
- Keep language concise but concrete: no vague buzzwords.
- When \x22creative direction / extra notes\x22 are provided, align the tone, pacing and motifs with them.
".

(** The template literal of [userPrompt], then [.trim()]. *)
Definition userPrompt (b : Body) (safeCount : Z) : result jsstring :=
  (let? genre_s := toString (genre b) in
   let? camera_s := toString (camera b) in
   let? stagePosition_s := toString (stagePosition b) in
   let? playtime_s := toString (playtime b) in
   let? difficulty_s := toString (difficulty b) in
   let? focus_s := toString (focus b) in
   let? theme_s := toString (or_else (themeKeywords b) (JStr (js "none"))) in
   let? notes_s := extra_notes (extraNotes b) in
   Ok (trim (js "
Generate " ++ Z_toString safeCount ++ js " level blueprints.

Game context:
- Genre: " ++ genre_s ++ js "
- Camera: " ++ camera_s ++ js "
- Target stage position: " ++ stagePosition_s ++ js "
- Target playtime: " ++ playtime_s ++ js "
- Target difficulty: " ++ difficulty_s ++ js "
- Primary focus: " ++ focus_s ++ js "
- Theme / setting keywords: " ++ theme_s ++ js "

Creative direction / extra notes from the designer:
" ++ notes_s ++ js "

Constraints:
- The blueprints should be suitable for an indie or small team.
- Each level should feel distinct from the others.
- Use the output structure defined in the system prompt.
- Keep the tone professional (for internal design docs), but still readable.
")))%result.

Definition try_block (fetch : Upstream) (b : Body) : M Response :=
  (blank <- lift (if negb (truthy (apiKey b)) then Ok true
                  else (let? t := trim_method (js "apiKey") (apiKey b) in
                        Ok (negb (truthy (JStr t))))%result) ;;
   if blank : bool then
     ret (mkResponse 400
            (JObj [(js "error", JStr (js "No API key provided"));
                   (js "message",
                    JStr (js "Please send your OpenAI API key in the 'apiKey' field."))]))
   else if negb (truthy (genre b)) || negb (truthy (camera b))
           || negb (truthy (stagePosition b)) || negb (truthy (playtime b))
           || negb (truthy (difficulty b)) || negb (truthy (focus b))
           || negb (truthy (count b)) then
     ret (mkResponse 400
            (JObj [(js "error", JStr (js "Missing required fields"))]))
   else
     safeCount <- lift (safeCount (count b)) ;;
     userPrompt <- lift (userPrompt b safeCount) ;;
     key <- lift (trim_method (js "apiKey") (apiKey b)) ;;
     apiResponse <- await_fetch fetch
       (mkCall (js "https://api.openai.com/v1/chat/completions")
               (js "POST")
               [(js "Authorization", js "Bearer " ++ key);
                (js "Content-Type", js "application/json")]
               (mkCompletion (js "gpt-4o-mini")
                             [mkMessage (js "system") SYSTEM_PROMPT;
                              mkMessage (js "user") userPrompt]
                             0.7
                             2800)) ;;
     if negb (ok apiResponse) then
       errorText <- lift (text apiResponse) ;;
       ret (mkResponse 500
              (JObj [(js "error", JStr (js "OpenAI API error"));
                     (js "detail", JStr errorText)]))
     else
       data <- lift (json apiResponse) ;;
       content <- lift (extract_content data) ;;
       ret (mkResponse 200 (JObj [(js "content", content)])))%handler.

(** [app.post("/api/level-blueprint", ...)]: the response sent and the
    outbound calls made. *)
Definition handler (fetch : Upstream) (b : Body)
  : Response * list OutboundCall :=
  run_handler (try_block fetch b).

End Part000.

(* ------------------------------------------------------------------ *)
(** ** The contract in the words of the specification *)

(** The 400 of a missing credential and the 400 of a missing field. *)
Definition missing_credential : Response :=
  mkResponse 400
    (JObj [(js "error", JStr (js "No API key provided"));
           (js "message",
            JStr (js "Please send your OpenAI API key in the 'apiKey' field."))]).

Definition missing_fields : Response :=
  mkResponse 400 (JObj [(js "error", JStr (js "Missing required fields"))]).

Definition upstream_error (detail : jsstring) : Response :=
  mkResponse 500 (JObj [(js "error", JStr (js "OpenAI API error"));
                        (js "detail", JStr detail)]).

Definition success (content : value) : Response :=
  mkResponse 200 (JObj [(js "content", content)]).

Definition client_error (r : Response) : Prop := 400 <= status r < 500.

(** [apiKey] absent, empty, or only whitespace. *)
Definition key_missing (v : value) : Prop :=
  v = JUndefined \/ exists s, v = JStr s /\ trim s = [].

(** [apiKey] present: a string that is not empty after trimming. *)
Definition key_present (v : value) : bool :=
  match v with
  | JStr s => match trim s with [] => false | _ => true end
  | _ => false
  end.

(** Every one of genre, camera, stagePosition, playtime, difficulty, focus
    and count is present (truthy). *)
Definition required_present (b : Body) : bool :=
  truthy (genre b) && truthy (camera b) && truthy (stagePosition b)
  && truthy (playtime b) && truthy (difficulty b) && truthy (focus b)
  && truthy (count b).

Definition stringable (v : value) : bool :=
  match toString v with Ok _ => true | Throw _ => false end.

Definition is_string (v : value) : bool :=
  match v with JStr _ => true | _ => false end.

(** A fully valid request: the credential and the required fields are
    present, every value the prompt interpolates has a string form, and
    [extraNotes], when given, is a string. *)
Definition fully_valid (b : Body) : bool :=
  key_present (apiKey b) && required_present b
  && stringable (genre b) && stringable (camera b)
  && stringable (stagePosition b) && stringable (playtime b)
  && stringable (difficulty b) && stringable (focus b)
  && stringable (themeKeywords b) && stringable (count b)
  && (negb (truthy (extraNotes b)) || is_string (extraNotes b)).

(** The LevelRequest of the data model: string fields, a count that is a
    number or a numeral string, optional strings. *)
Definition well_typed (b : Body) : bool :=
  is_string (apiKey b) && is_string (genre b) && is_string (camera b)
  && is_string (stagePosition b) && is_string (playtime b)
  && is_string (difficulty b) && is_string (focus b)
  && match themeKeywords b with JUndefined | JStr _ => true | _ => false end
  && match count b with JNum _ | JNumR _ | JStr _ => true | _ => false end
  && match extraNotes b with JUndefined | JStr _ => true | _ => false end.

(** After leading whitespace and one optional sign, the string starts
    with a decimal digit. *)
Definition numeric_prefix (s : jsstring) : bool :=
  match trimStart s with
  | [] => false
  | c :: t =>
    if ((c =? 45) || (c =? 43))%N
    then match t with d :: _ => is_digit d | [] => false end
    else is_digit c
  end.

Definition non_numeric (v : value) : Prop :=
  exists s, toString v = Ok s /\ numeric_prefix s = false.

(** The member [k] of a JSON container, when it has one. *)
Definition own_member (v : value) (k : jsstring) : option value :=
  match v with
  | JObj props => lookup_last k props
  | JArr elems =>
    match index_of_key k with
    | Some i => nth_error elems i
    | None => None
    end
  | _ => None
  end.

Fixpoint path_lookup (v : value) (path : list jsstring) : option value :=
  match path with
  | [] => Some v
  | k :: rest =>
    match own_member v k with
    | Some w => path_lookup w rest
    | None => None
    end
  end.

(** choices[0].message.content *)
Definition content_path : list jsstring :=
  [js "choices"; js "0"; js "message"; js "content"].

(** The outbound call for a credential and a pair of prompts. *)
Definition completion_call (key systemPrompt userPrompt : jsstring)
  : OutboundCall :=
  mkCall (js "https://api.openai.com/v1/chat/completions")
         (js "POST")
         [(js "Authorization", js "Bearer " ++ key);
          (js "Content-Type", js "application/json")]
         (mkCompletion (js "gpt-4o-mini")
                       [mkMessage (js "system") systemPrompt;
                        mkMessage (js "user") userPrompt]
                       0.7 2800).

(** The paragraph the layout-data variant adds to the constraints. *)
Definition layout_paragraph : jsstring := js "
- For every level, you MUST also include the 'Level Layout Data (for Visualizer)'
  section at the end, with a valid \`level-json\` block that approximates a
  top-down layout of the described level.".

(** The two phases of a handler: what it decides before the call, and what
    it answers from the outcome of the call. *)
Inductive Decision : Type :=
| Reject (r : Response)
| Fail (e : exn)
| Forward (c : OutboundCall).

Definition key_blank (v : value) : result bool :=
  if negb (truthy v) then Ok true
  else (let? t := trim_method (js "apiKey") v in
        Ok (negb (truthy (JStr t))))%result.

Definition decide_request (systemPrompt : jsstring)
    (prompt : Body -> Z -> result jsstring) (b : Body) : Decision :=
  match key_blank (apiKey b) with
  | Throw e => Fail e
  | Ok true => Reject missing_credential
  | Ok false =>
    if negb (required_present b) then Reject missing_fields
    else match safeCount (count b) with
         | Throw e => Fail e
         | Ok n =>
           match prompt b n with
           | Throw e => Fail e
           | Ok p =>
             match trim_method (js "apiKey") (apiKey b) with
             | Throw e => Fail e
             | Ok key => Forward (completion_call key systemPrompt p)
             end
           end
         end
  end.

Definition answer (o : result FetchResponse) : Response :=
  match o with
  | Throw e => server_error e
  | Ok r =>
    if negb (ok r) then
      match text r with
      | Ok errorText => upstream_error errorText
      | Throw e => server_error e
      end
    else
      match json r with
      | Throw e => server_error e
      | Ok data =>
        match extract_content data with
        | Throw e => server_error e
        | Ok c => success c
        end
      end
  end.

Definition two_phase (systemPrompt : jsstring)
    (prompt : Body -> Z -> result jsstring) (fetch : Upstream) (b : Body)
  : Response * list OutboundCall :=
  match decide_request systemPrompt prompt b with
  | Reject r => (r, [])
  | Fail e => (server_error e, [])
  | Forward c => (answer (fetch c), [c])
  end.

(** A string holds a character that is not whitespace. *)
Definition has_nonws (s : jsstring) : bool := existsb (fun c => negb (is_ws c)) s.

(** The code units of a string of the standard library. *)
Definition codes (s : string) : jsstring :=
  map N_of_ascii (list_ascii_of_string s).

(** What the claims say of a prompt [p] built for the request [b] with
    the normalized count [n]. *)
Definition mentions (b : Body) (n : Z) (p : jsstring) : Prop :=
  (exists s, toString (genre b) = Ok s /\ contains s p)
  /\ (exists s, toString (camera b) = Ok s /\ contains s p)
  /\ (exists s, toString (stagePosition b) = Ok s /\ contains s p)
  /\ (exists s, toString (playtime b) = Ok s /\ contains s p)
  /\ (exists s, toString (difficulty b) = Ok s /\ contains s p)
  /\ (exists s, toString (focus b) = Ok s /\ contains s p)
  /\ contains (Z_toString n) p
  /\ (key_missing (extraNotes b) -> contains (js "No additional notes.") p)
  /\ (themeKeywords b = JUndefined -> contains (js "none") p).

(** One of the two handlers. *)
Definition variant (h : Upstream -> Body -> Response * list OutboundCall)
  : Prop :=
  h = ServerJs.handler \/ h = Part000.handler.

Definition member_or_undefined (v : value) (k : jsstring) : value :=
  match own_member v k with Some w => w | None => JUndefined end.

(** [v?.k] inside a chain whose result is [undefined] once a link is
    [null] or [undefined]. *)
Definition walk (v : value) (k : jsstring) : value :=
  match opt_get v k with Some w => w | None => JUndefined end.

(** A response body that is an object with a string under [error]. *)
Definition error_body (v : value) : Prop :=
  exists props msg,
    v = JObj props /\ lookup_last (js "error") props = Some (JStr msg).

(** A response is a 200 with a [content], or a 400 or 500 with an
    [error]. *)
Definition well_formed_response (r : Response) : Prop :=
  (status r = 200
   /\ exists v, payload r = JObj [(js "content", v)]
                /\ (truthy v = true \/ v = JStr []))
  \/ ((status r = 400 \/ status r = 500) /\ error_body (payload r)).

(** A string value with the whitespace at its two ends removed; any other
    value as it is. *)
Definition trimmed (v : value) : value :=
  match v with
  | JStr s => JStr (trim s)
  | _ => v
  end.

(** The request with [apiKey] and [extraNotes] trimmed. *)
Definition trim_request (b : Body) : Body :=
  mkBody (trimmed (apiKey b)) (genre b) (camera b) (stagePosition b)
         (playtime b) (difficulty b) (focus b) (themeKeywords b) (count b)
         (trimmed (extraNotes b)).

(** The request with other values for [genre] and [camera]. *)
Definition with_genre_camera (b : Body) (g c : value) : Body :=
  mkBody (apiKey b) g c (stagePosition b) (playtime b) (difficulty b)
         (focus b) (themeKeywords b) (count b) (extraNotes b).


(** Induction on values, through the elements of arrays and the members
    of objects. *)
Section ValueInduction.

Variable P : value -> Prop.
Hypothesis P_undefined : P JUndefined.
Hypothesis P_null : P JNull.
Hypothesis P_bool : forall b, P (JBool b).
Hypothesis P_num : forall z, P (JNum z).
Hypothesis P_numR : forall r, P (JNumR r).
Hypothesis P_str : forall s, P (JStr s).
Hypothesis P_arr : forall elems, Forall P elems -> P (JArr elems).
Hypothesis P_obj :
  forall props, Forall (fun kv => P (snd kv)) props -> P (JObj props).

Fixpoint value_induction (v : value) : P v :=
  match v with
  | JUndefined => P_undefined
  | JNull => P_null
  | JBool b => P_bool b
  | JNum z => P_num z
  | JNumR r => P_numR r
  | JStr s => P_str s
  | JArr elems =>
    P_arr elems
      ((fix all (l : list value) : Forall P l :=
          match l with
          | [] => Forall_nil P
          | x :: rest => Forall_cons x (value_induction x) (all rest)
          end) elems)
  | JObj props =>
    P_obj props
      ((fix all (l : list (jsstring * value))
          : Forall (fun kv => P (snd kv)) l :=
          match l with
          | [] => Forall_nil _
          | kv :: rest =>
            Forall_cons kv (value_induction (snd kv)) (all rest)
          end) props)
  end.

End ValueInduction.

(* ------------------------------------------------------------------ *)
(** ** Sample requests and upstreams *)

Definition sample_request : Body :=
  mkBody (JStr (js " sk-test "))
         (JStr (js "Roguelike")) (JStr (js "Top-down")) (JStr (js "Mid"))
         (JStr (js "10 minutes")) (JStr (js "Hard")) (JStr (js "Combat"))
         JUndefined (JNum 15) (JStr (js "   ")).

Definition reply (r : FetchResponse) : Upstream := fun _ => Ok r.

Definition envelope (content : value) : value :=
  JObj [(js "choices",
         JArr [JObj [(js "message", JObj [(js "content", content)])]])].

(* ------------------------------------------------------------------ *)
(** ** Lemmas on strings *)


Lemma has_nonws_app (a b : jsstring) :
  has_nonws (a ++ b) = has_nonws a || has_nonws b.
Proof. apply existsb_app. Qed.

Lemma has_nonws_rev (a : jsstring) : has_nonws (rev a) = has_nonws a.
Proof.
  induction a as [|c a IH]; simpl; [reflexivity|].
  rewrite has_nonws_app, IH. simpl. rewrite orb_false_r. apply orb_comm.
Qed.

Lemma trimStart_app (a r : jsstring) :
  has_nonws a = true -> trimStart (a ++ r) = trimStart a ++ r.
Proof.
  induction a as [|c a IH]; simpl; [discriminate|].
  destruct (is_ws c); simpl; [exact IH | reflexivity].
Qed.

Lemma trimEnd_app (x z : jsstring) :
  has_nonws z = true -> trimEnd (x ++ z) = x ++ trimEnd z.
Proof.
  intros H. unfold trimEnd. rewrite rev_app_distr, trimStart_app.
  - rewrite rev_app_distr, rev_involutive. reflexivity.
  - rewrite has_nonws_rev. exact H.
Qed.

Lemma trimStart_nonws (s : jsstring) :
  has_nonws s = false -> trimStart s = [].
Proof.
  induction s as [|c s IH]; simpl; [reflexivity|].
  destruct (is_ws c); simpl; [exact IH | discriminate].
Qed.

Lemma has_nonws_trimStart (s : jsstring) :
  has_nonws (trimStart s) = has_nonws s.
Proof.
  induction s as [|c s IH]; simpl; [reflexivity|].
  destruct (is_ws c) eqn:E; simpl; [exact IH | rewrite E; reflexivity].
Qed.

Lemma trim_nil_iff (s : jsstring) : trim s = [] <-> has_nonws s = false.
Proof.
  unfold trim, trimEnd. split; intros H.
  - destruct (has_nonws s) eqn:E; [|reflexivity].
    assert (H1 : has_nonws (rev (trimStart (rev (trimStart s)))) = true).
    { rewrite has_nonws_rev, has_nonws_trimStart, has_nonws_rev,
        has_nonws_trimStart. exact E. }
    rewrite H in H1. discriminate.
  - rewrite (trimStart_nonws s H). reflexivity.
Qed.

Lemma contains_refl (x : jsstring) : contains x x.
Proof. exists [], []. rewrite app_nil_r. reflexivity. Qed.

Lemma contains_here (x r : jsstring) : contains x (x ++ r).
Proof. exists [], r. reflexivity. Qed.

Lemma contains_skip (x a r : jsstring) : contains x r -> contains x (a ++ r).
Proof.
  intros [pre [post ->]]. exists (a ++ pre), post.
  rewrite <- app_assoc. reflexivity.
Qed.

Lemma has_nonws_app_r (a z : jsstring) :
  has_nonws z = true -> has_nonws (a ++ z) = true.
Proof. intros H. rewrite has_nonws_app, H. apply orb_true_r. Qed.

(** Rewrites [trim] of a template whose first and last chunks hold a
    character that is not whitespace. *)
Ltac nonws_side :=
  repeat apply has_nonws_app_r; vm_compute; reflexivity.

Ltac trim_template :=
  unfold trim;
  rewrite trimStart_app by (vm_compute; reflexivity);
  repeat rewrite trimEnd_app by nonws_side.

(** The chunks of a template are closed terms: they are abstracted before a
    search through the concatenation. *)
Ltac hide_chunks :=
  repeat match goal with
         | |- context [trimStart (js ?s)] =>
           generalize (trimStart (js s)); intro
         | |- context [trimEnd (js ?s)] =>
           generalize (trimEnd (js s)); intro
         | |- context [js ?s] => generalize (js s); intro
         end.

Ltac solve_contains :=
  hide_chunks;
  repeat first [ apply contains_here | apply contains_skip ].

(* ------------------------------------------------------------------ *)
(** ** The handlers in two phases *)

Lemma any_missing (g c s p d f n : bool) :
  negb g || negb c || negb s || negb p || negb d || negb f || negb n
  = negb (g && c && s && p && d && f && n).
Proof. destruct g, c, s, p, d, f, n; reflexivity. Qed.

Ltac two_phase_cases b fetch :=
  unfold run_handler, two_phase, decide_request, key_blank, required_present,
    bind, lift, ret, await_fetch, rbind, answer, missing_credential,
    missing_fields, upstream_error, success, completion_call;
  rewrite any_missing;
  destruct (truthy (apiKey b)); cbn [negb]; [|reflexivity];
  destruct (trim_method (js "apiKey") (apiKey b)) as [k|e]; [|reflexivity];
  destruct (truthy (JStr k)); cbn [negb]; [|reflexivity];
  destruct (truthy (genre b) && truthy (camera b) && truthy (stagePosition b)
            && truthy (playtime b) && truthy (difficulty b)
            && truthy (focus b) && truthy (count b));
  cbn [negb]; [|reflexivity];
  destruct (safeCount (count b)) as [n|e]; [|reflexivity].

Lemma ServerJs_two_phase (fetch : Upstream) (b : Body) :
  ServerJs.handler fetch b
  = two_phase ServerJs.SYSTEM_PROMPT ServerJs.userPrompt fetch b.
Proof.
  unfold ServerJs.handler, ServerJs.try_block.
  two_phase_cases b fetch.
  destruct (ServerJs.userPrompt b n) as [p|e]; [|reflexivity].
  cbn [app].
  destruct (fetch _) as [r|e]; [|reflexivity].
  destruct (ok r); cbn [negb].
  - destruct (json r) as [data|e]; [|reflexivity].
    destruct (extract_content data); reflexivity.
  - destruct (text r); reflexivity.
Qed.

Lemma Part000_two_phase (fetch : Upstream) (b : Body) :
  Part000.handler fetch b
  = two_phase Part000.SYSTEM_PROMPT Part000.userPrompt fetch b.
Proof.
  unfold Part000.handler, Part000.try_block.
  two_phase_cases b fetch.
  destruct (Part000.userPrompt b n) as [p|e]; [|reflexivity].
  cbn [app].
  destruct (fetch _) as [r|e]; [|reflexivity].
  destruct (ok r); cbn [negb].
  - destruct (json r) as [data|e]; [|reflexivity].
    destruct (extract_content data); reflexivity.
  - destruct (text r); reflexivity.
Qed.

(** The prompt of the layout-data variant is the prompt of the other one
    followed by the layout paragraph. *)
Lemma userPrompt_variants (b : Body) (n : Z) :
  ServerJs.userPrompt b n
  = (let? p := Part000.userPrompt b n in Ok (p ++ layout_paragraph))%result.
Proof.
  unfold ServerJs.userPrompt, Part000.userPrompt, rbind.
  destruct (toString (genre b)); [|reflexivity].
  destruct (toString (camera b)); [|reflexivity].
  destruct (toString (stagePosition b)); [|reflexivity].
  destruct (toString (playtime b)); [|reflexivity].
  destruct (toString (difficulty b)); [|reflexivity].
  destruct (toString (focus b)); [|reflexivity].
  destruct (toString (or_else (themeKeywords b) (JStr (js "none"))));
    [|reflexivity].
  destruct (extra_notes (extraNotes b)); [|reflexivity].
  f_equal.
  trim_template. trim_template.
  repeat rewrite <- app_assoc.
  repeat apply (f_equal (app _)).
  vm_compute. reflexivity.
Qed.

(* ------------------------------------------------------------------ *)
(** ** Validation *)

Lemma key_blank_missing (v : value) : key_missing v -> key_blank v = Ok true.
Proof.
  intros [-> | [s [-> H]]]; [reflexivity|].
  unfold key_blank. destruct s as [|c s]; [reflexivity|].
  cbn [truthy negb trim_method rbind]. rewrite H. reflexivity.
Qed.

Lemma key_blank_present (v : value) :
  key_present v = true -> key_blank v = Ok false.
Proof.
  destruct v; try discriminate. unfold key_present, key_blank.
  destruct s as [|c s]; [discriminate|].
  cbn [truthy negb trim_method rbind].
  destruct (trim (c :: s)); [discriminate | reflexivity].
Qed.

Lemma key_blank_not_string (v : value) :
  truthy v = true -> is_string v = false ->
  key_blank v = Throw (TypeError (js "apiKey" ++ js ".trim is not a function")).
Proof.
  intros T S. unfold key_blank. rewrite T.
  destruct v; try discriminate; reflexivity.
Qed.

Section Decisions.

Variable systemPrompt : jsstring.
Variable prompt : Body -> Z -> result jsstring.
Variable b : Body.

Lemma decide_missing_key :
  key_missing (apiKey b) ->
  decide_request systemPrompt prompt b = Reject missing_credential.
Proof.
  intros H. unfold decide_request. rewrite (key_blank_missing _ H).
  reflexivity.
Qed.

Lemma decide_missing_field :
  key_present (apiKey b) = true -> required_present b = false ->
  decide_request systemPrompt prompt b = Reject missing_fields.
Proof.
  intros K R. unfold decide_request.
  rewrite (key_blank_present _ K), R. reflexivity.
Qed.

Lemma decide_key_not_string :
  truthy (apiKey b) = true -> is_string (apiKey b) = false ->
  decide_request systemPrompt prompt b
  = Fail (TypeError (js "apiKey" ++ js ".trim is not a function")).
Proof.
  intros T S. unfold decide_request.
  rewrite (key_blank_not_string _ T S). reflexivity.
Qed.

Lemma decide_forward (k : jsstring) (n : Z) (p : jsstring) :
  apiKey b = JStr k -> key_present (apiKey b) = true ->
  required_present b = true ->
  safeCount (count b) = Ok n -> prompt b n = Ok p ->
  decide_request systemPrompt prompt b
  = Forward (completion_call (trim k) systemPrompt p).
Proof.
  intros A K R C P. unfold decide_request.
  rewrite (key_blank_present _ K), R, C, P, A. reflexivity.
Qed.

Lemma two_phase_answer (fetch : Upstream) (c : OutboundCall) :
  In c (snd (two_phase systemPrompt prompt fetch b)) ->
  fst (two_phase systemPrompt prompt fetch b) = answer (fetch c).
Proof.
  unfold two_phase.
  destruct (decide_request systemPrompt prompt b); simpl; intros H;
    try contradiction.
  destruct H as [-> | []]. reflexivity.
Qed.

End Decisions.

Lemma missing_credential_status :
  status missing_credential = 400 /\ status missing_fields = 400
  /\ missing_credential <> missing_fields.
Proof. repeat split. intros H. vm_compute in H. discriminate. Qed.

(** C2.  A request whose [apiKey] is absent, empty or only whitespace gets
    the 400 response that carries [error] and the [message] asking for the
    key, and no outbound call is made; in both variants. *)
Theorem missing_apiKey_rejected (fetch : Upstream) (b : Body) :
  key_missing (apiKey b) ->
  ServerJs.handler fetch b = (missing_credential, [])
  /\ Part000.handler fetch b = (missing_credential, [])
  /\ client_error missing_credential
  /\ payload missing_credential
     = JObj [(js "error", JStr (js "No API key provided"));
             (js "message",
              JStr (js "Please send your OpenAI API key in the 'apiKey' field."))].
Proof.
  intros H. rewrite ServerJs_two_phase, Part000_two_phase.
  unfold two_phase. rewrite !decide_missing_key by exact H.
  repeat split; unfold client_error; simpl; lia.
Qed.

Lemma missing_apiKey_rejected_witness :
  let blank := mkBody (JStr (js "  ")) (JStr (js "Roguelike")) JUndefined
                 JUndefined JUndefined JUndefined JUndefined JUndefined
                 (JNum 3) JUndefined in
  key_missing (apiKey blank)
  /\ ServerJs.handler (reply (mkFetchResponse true (Ok []) (Ok JNull))) blank
     = (missing_credential, []).
Proof.
  intros blank.
  assert (H : key_missing (apiKey blank)).
  { right. exists (js "  "). split; reflexivity. }
  split; [exact H|].
  exact (proj1 (missing_apiKey_rejected
                  (reply (mkFetchResponse true (Ok []) (Ok JNull))) blank H)).
Defined.

(** C3.  With the [apiKey] present (a string that is not blank after
    trimming), a request in which one of genre, camera, stagePosition,
    playtime, difficulty, focus, count is absent or falsy gets the 400
    response whose body is exactly [{ error: "Missing required fields" }],
    and no outbound call is made; in both variants. *)
Theorem missing_field_rejected (fetch : Upstream) (b : Body) :
  key_present (apiKey b) = true ->
  (truthy (genre b) = false \/ truthy (camera b) = false
   \/ truthy (stagePosition b) = false \/ truthy (playtime b) = false
   \/ truthy (difficulty b) = false \/ truthy (focus b) = false
   \/ truthy (count b) = false) ->
  ServerJs.handler fetch b = (missing_fields, [])
  /\ Part000.handler fetch b = (missing_fields, [])
  /\ client_error missing_fields
  /\ payload missing_fields
     = JObj [(js "error", JStr (js "Missing required fields"))].
Proof.
  intros K F.
  assert (R : required_present b = false).
  { unfold required_present.
    destruct F as [F|[F|[F|[F|[F|[F|F]]]]]]; rewrite F;
      rewrite ?andb_false_r; reflexivity. }
  rewrite ServerJs_two_phase, Part000_two_phase.
  unfold two_phase. rewrite !decide_missing_field by assumption.
  repeat split; unfold client_error; simpl; lia.
Qed.

Lemma missing_field_rejected_witness :
  let zero_count := mkBody (JStr (js "sk-test")) (JStr (js "Roguelike"))
                      (JStr (js "Top-down")) (JStr (js "Mid"))
                      (JStr (js "10 minutes")) (JStr (js "Hard"))
                      (JStr (js "Combat")) JUndefined (JNum 0) JUndefined in
  Part000.handler (reply (mkFetchResponse true (Ok []) (Ok JNull))) zero_count
  = (missing_fields, []).
Proof.
  intros zero_count.
  refine (proj1 (proj2 (missing_field_rejected _ zero_count _ _))).
  - reflexivity.
  - do 6 right. reflexivity.
Defined.

(** C7.  Validation is ordered: when the [apiKey] is missing and a required
    field is missing too, the response is the 400 of the missing
    credential, with its message, and not the 400 of the missing fields. *)
Theorem credential_check_first (fetch : Upstream) (b : Body) :
  key_missing (apiKey b) ->
  required_present b = false ->
  fst (ServerJs.handler fetch b) = missing_credential
  /\ fst (Part000.handler fetch b) = missing_credential
  /\ fst (ServerJs.handler fetch b) <> missing_fields
  /\ fst (Part000.handler fetch b) <> missing_fields.
Proof.
  intros H _. rewrite ServerJs_two_phase, Part000_two_phase.
  unfold two_phase. rewrite !decide_missing_key by exact H.
  repeat split; apply missing_credential_status.
Qed.

Lemma credential_check_first_witness :
  fst (ServerJs.handler (reply (mkFetchResponse true (Ok []) (Ok JNull)))
         (mkBody JUndefined JUndefined JUndefined JUndefined JUndefined
                 JUndefined JUndefined JUndefined JUndefined JUndefined))
  = missing_credential.
Proof.
  refine (proj1 (credential_check_first _ _ _ _)).
  - left. reflexivity.
  - reflexivity.
Defined.

(** C9.  An [apiKey] that is truthy but not a string (a number, [true], an
    array, an object) does not get the 400 of the missing credential: the
    call of [.trim()] throws, the [catch] clause answers 500 with
    [{ error: "Server error", detail: <failure message> }], and no outbound
    call is made. *)
Theorem non_string_apiKey_server_error (fetch : Upstream) (b : Body) :
  truthy (apiKey b) = true ->
  is_string (apiKey b) = false ->
  let failure := TypeError (js "apiKey.trim is not a function") in
  ServerJs.handler fetch b = (server_error failure, [])
  /\ Part000.handler fetch b = (server_error failure, [])
  /\ status (server_error failure) = 500
  /\ payload (server_error failure)
     = JObj [(js "error", JStr (js "Server error"));
             (js "detail", JStr (exn_message failure))]
  /\ server_error failure <> missing_credential.
Proof.
  intros T S failure. rewrite ServerJs_two_phase, Part000_two_phase.
  unfold two_phase. rewrite !decide_key_not_string by assumption.
  assert (E : TypeError (js "apiKey" ++ js ".trim is not a function")
              = failure) by (vm_compute; reflexivity).
  rewrite E. repeat split.
  intros H. apply (f_equal status) in H. discriminate H.
Qed.

Lemma non_string_apiKey_server_error_witness :
  fst (ServerJs.handler (reply (mkFetchResponse true (Ok []) (Ok JNull)))
         (mkBody (JNum 12345) (JStr (js "Roguelike")) (JStr (js "Top-down"))
                 (JStr (js "Mid")) (JStr (js "10 minutes")) (JStr (js "Hard"))
                 (JStr (js "Combat")) JUndefined (JNum 3) JUndefined))
  = server_error (TypeError (js "apiKey.trim is not a function")).
Proof.
  refine (f_equal fst (proj1 (non_string_apiKey_server_error _ _ _ _)));
    reflexivity.
Defined.

(* ------------------------------------------------------------------ *)
(** ** Count normalization *)

Lemma digits_prefix_nonneg (s : jsstring) :
  forall acc n, 0 <= acc -> 0 <= fst (digits_prefix s acc n).
Proof.
  induction s as [|c s IH]; intros acc n H; cbn [digits_prefix];
    [exact H|].
  destruct (is_digit c); [|exact H].
  apply IH. pose proof (N2Z.is_nonneg (c - 48)). lia.
Qed.

Lemma digits_prefix_none (s : jsstring) :
  match s with c :: _ => is_digit c = false | [] => True end ->
  digits_prefix s 0 0 = (0, O).
Proof.
  destruct s as [|c s]; simpl; [reflexivity|]. intros ->. reflexivity.
Qed.

Lemma parseInt_non_numeric (s : jsstring) :
  numeric_prefix s = false -> parseInt s = None.
Proof.
  unfold numeric_prefix, parseInt.
  destruct (trimStart s) as [|c t]; [reflexivity|].
  destruct (c =? 45)%N; simpl.
  - intros H. rewrite digits_prefix_none; [reflexivity|].
    destruct t; [exact I | exact H].
  - destruct (c =? 43)%N; simpl; intros H.
    + rewrite digits_prefix_none; [reflexivity|].
      destruct t; [exact I | exact H].
    + rewrite H. reflexivity.
Qed.

Lemma parseInt_minus (t : jsstring) :
  match parseInt (45%N :: t) with Some z => z <= 0 | None => True end.
Proof.
  unfold parseInt. cbn [trimStart].
  change (is_ws 45%N) with false. cbn iota.
  change (45 =? 45)%N with true. cbn iota.
  pose proof (digits_prefix_nonneg t 0 0 ltac:(lia)) as H.
  destruct (digits_prefix t 0 0) as [m [|n]]; [exact I|].
  simpl in H. lia.
Qed.

Lemma clamp_range (o : option Z) : 1 <= Z.min (Z.max (or_one o) 1) 10 <= 10.
Proof. lia. Qed.

Lemma clamp_nonpos (o : option Z) :
  match o with Some z => z <= 0 | None => True end ->
  Z.min (Z.max (or_one o) 1) 10 = 1.
Proof.
  destruct o as [z|]; [|reflexivity].
  intros H. destruct z; simpl; try reflexivity; lia.
Qed.

Lemma Z_toString_neg (p : positive) :
  Z_toString (Z.neg p)
  = 45%N :: map N_of_ascii
              (list_ascii_of_string
                 (NilZero.string_of_uint (Pos.to_uint p))).
Proof. reflexivity. Qed.

Lemma digits_prefix_acc (d : Decimal.uint) :
  forall (acc : positive) (n : nat),
    digits_prefix (codes (NilEmpty.string_of_uint d)) (Z.pos acc) n
    = (Z.pos (Pos.of_uint_acc d acc), (n + Decimal.nb_digits d)%nat).
Proof.
  induction d; intros acc n;
    try (cbn [NilEmpty.string_of_uint codes list_ascii_of_string map
              digits_prefix Pos.of_uint_acc Decimal.nb_digits];
         match goal with
         | |- context [is_digit ?c] => change (is_digit c) with true
         end;
         cbn iota; rewrite Nat.add_succ_r;
         match goal with
         | |- digits_prefix _ ?a _ = (Z.pos (Pos.of_uint_acc _ ?q), _) =>
           replace a with (Z.pos q) by (vm_compute N_of_ascii; lia)
         end;
         apply IHd).
  cbn. rewrite Nat.add_0_r. reflexivity.
Qed.

Lemma digits_prefix_uint (d : Decimal.uint) :
  forall n : nat,
    digits_prefix (codes (NilEmpty.string_of_uint d)) 0 n
    = (Z.of_N (Pos.of_uint d), (n + Decimal.nb_digits d)%nat).
Proof.
  induction d; intros n;
    try (cbn [NilEmpty.string_of_uint codes list_ascii_of_string map
              digits_prefix Pos.of_uint Decimal.nb_digits];
         match goal with
         | |- context [is_digit ?c] => change (is_digit c) with true
         end;
         cbn iota; rewrite Nat.add_succ_r).
  - cbn. rewrite Nat.add_0_r. reflexivity.
  - apply (IHd (S n)).
  - apply (digits_prefix_acc d 1).
  - apply (digits_prefix_acc d 2).
  - apply (digits_prefix_acc d 3).
  - apply (digits_prefix_acc d 4).
  - apply (digits_prefix_acc d 5).
  - apply (digits_prefix_acc d 6).
  - apply (digits_prefix_acc d 7).
  - apply (digits_prefix_acc d 8).
  - apply (digits_prefix_acc d 9).
Qed.

Lemma numeral_head (d : Decimal.uint) :
  d <> Decimal.Nil ->
  exists c t, codes (NilEmpty.string_of_uint d) = c :: t
    /\ is_ws c = false /\ (c =? 45)%N = false /\ (c =? 43)%N = false.
Proof.
  intros H. destruct d; [contradiction|..];
    eexists; eexists; (split; [reflexivity|]); repeat split.
Qed.

Lemma parseInt_numeral (d : Decimal.uint) :
  d <> Decimal.Nil ->
  parseInt (codes (NilEmpty.string_of_uint d)) = Some (Z.of_N (Pos.of_uint d)).
Proof.
  intros H. destruct (numeral_head d H) as [c [t [E [W [M P]]]]].
  unfold parseInt. rewrite E. cbn [trimStart]. rewrite W, M, P.
  rewrite <- E, digits_prefix_uint.
  destruct d; [contradiction|..]; cbn [Decimal.nb_digits Nat.add];
    f_equal; apply Z.mul_1_l.
Qed.

Lemma parseInt_Z_toString (p : positive) :
  parseInt (Z_toString (Z.pos p)) = Some (Z.pos p).
Proof.
  assert (N : Pos.to_uint p <> Decimal.Nil).
  { intros E. pose proof (DecimalPos.Unsigned.of_to p) as H.
    rewrite E in H. discriminate H. }
  change (Z_toString (Z.pos p))
    with (codes (NilZero.string_of_uint (Pos.to_uint p))).
  replace (NilZero.string_of_uint (Pos.to_uint p))
    with (NilEmpty.string_of_uint (Pos.to_uint p))
    by (destruct (Pos.to_uint p); [contradiction|..]; reflexivity).
  rewrite (parseInt_numeral _ N), DecimalPos.Unsigned.of_to. reflexivity.
Qed.

Lemma safeCount_range (v : value) (n : Z) :
  safeCount v = Ok n -> 1 <= n <= 10.
Proof.
  unfold safeCount, rbind. destruct (toString v); [|discriminate].
  intros H. injection H as <-. apply clamp_range.
Qed.

Lemma safeCount_total (v : value) :
  stringable v = true -> exists n, safeCount v = Ok n /\ 1 <= n <= 10.
Proof.
  unfold stringable, safeCount, rbind. destruct (toString v); [|discriminate].
  intros _. eexists. split; [reflexivity | apply clamp_range].
Qed.

Lemma safeCount_negative (z : Z) : z < 0 -> safeCount (JNum z) = Ok 1.
Proof.
  intros H. destruct z as [|p|p]; try lia.
  unfold safeCount. cbn [toString rbind]. rewrite Z_toString_neg.
  f_equal. apply clamp_nonpos. apply parseInt_minus.
Qed.

Lemma safeCount_minus_sign (t : jsstring) :
  safeCount (JStr (45%N :: t)) = Ok 1 /\ safeCount (JNumR (45%N :: t)) = Ok 1.
Proof.
  unfold safeCount. cbn [toString rbind].
  split; f_equal; apply clamp_nonpos; apply parseInt_minus.
Qed.

Lemma safeCount_non_numeric (v : value) :
  non_numeric v -> safeCount v = Ok 1.
Proof.
  intros [s [E H]]. unfold safeCount, rbind. rewrite E.
  rewrite (parseInt_non_numeric s H). reflexivity.
Qed.

(** An integer count is clamped to the range from 1 to 10. *)
Lemma safeCount_integer (z : Z) :
  safeCount (JNum z) = Ok (Z.min (Z.max z 1) 10).
Proof.
  destruct z as [|p|p].
  - reflexivity.
  - unfold safeCount. cbn [toString rbind].
    rewrite parseInt_Z_toString. reflexivity.
  - rewrite safeCount_negative by lia. reflexivity.
Qed.

Lemma safeCount_in_range (z : Z) :
  1 <= z <= 10 -> safeCount (JNum z) = Ok z.
Proof. intros H. rewrite safeCount_integer. f_equal. lia. Qed.

(* ------------------------------------------------------------------ *)
(** ** The synthesized prompt *)

Lemma contains_app_l (x p q : jsstring) : contains x p -> contains x (p ++ q).
Proof.
  intros [pre [post ->]]. exists pre, (post ++ q).
  rewrite <- !app_assoc. reflexivity.
Qed.

Lemma extra_notes_total (v : value) :
  negb (truthy v) || is_string v = true ->
  exists s, extra_notes v = Ok s
    /\ (key_missing v -> s = js "No additional notes.").
Proof.
  intros H. unfold extra_notes.
  destruct (truthy v) eqn:T.
  - destruct v; try discriminate.
    cbn [trim_method rbind].
    destruct (trim s) as [|c t] eqn:E.
    + eexists. split; [reflexivity|]. reflexivity.
    + eexists. split; [reflexivity|].
      intros [K | [s' [K K']]]; [discriminate|].
      injection K as <-. rewrite E in K'. discriminate.
  - eexists. split; reflexivity.
Qed.

Lemma theme_total (v : value) :
  stringable v = true ->
  exists s, toString (or_else v (JStr (js "none"))) = Ok s
    /\ (v = JUndefined -> s = js "none").
Proof.
  unfold stringable, or_else. intros H.
  destruct (truthy v) eqn:T.
  - destruct (toString v) as [s|]; [|discriminate].
    exists s. split; [reflexivity|]. intros ->. discriminate.
  - eexists. split; reflexivity.
Qed.


Lemma mentions_app (b : Body) (n : Z) (p q : jsstring) :
  mentions b n p -> mentions b n (p ++ q).
Proof.
  unfold mentions.
  intros [[g [G1 G2]] [[c [C1 C2]] [[s [S1 S2]] [[t [T1 T2]] [[d [D1 D2]]
          [[f [F1 F2]] [N [E K]]]]]]]].
  repeat split; eauto using contains_app_l.
Qed.

Lemma Part000_userPrompt_total (b : Body) (n : Z) :
  fully_valid b = true ->
  exists p, Part000.userPrompt b n = Ok p /\ mentions b n p.
Proof.
  unfold fully_valid. rewrite !andb_true_iff.
  intros [[[[[[[[[[_ _] G] C] S] T] D] F] K] _] E].
  destruct (extra_notes_total _ E) as [notes [E1 E2]].
  destruct (theme_total _ K) as [th [K1 K2]].
  unfold stringable in G, C, S, T, D, F.
  unfold Part000.userPrompt, rbind. rewrite K1, E1.
  destruct (toString (genre b)) as [g|] eqn:Eg; [|discriminate].
  destruct (toString (camera b)) as [c|] eqn:Ec; [|discriminate].
  destruct (toString (stagePosition b)) as [s|] eqn:Es; [|discriminate].
  destruct (toString (playtime b)) as [t|] eqn:Et; [|discriminate].
  destruct (toString (difficulty b)) as [d|] eqn:Ed; [|discriminate].
  destruct (toString (focus b)) as [f|] eqn:Ef; [|discriminate].
  eexists. split; [reflexivity|].
  trim_template. unfold mentions. rewrite Eg, Ec, Es, Et, Ed, Ef.
  repeat split.
  - exists g. split; [reflexivity | solve_contains].
  - exists c. split; [reflexivity | solve_contains].
  - exists s. split; [reflexivity | solve_contains].
  - exists t. split; [reflexivity | solve_contains].
  - exists d. split; [reflexivity | solve_contains].
  - exists f. split; [reflexivity | solve_contains].
  - solve_contains.
  - intros H. rewrite <- (E2 H). solve_contains.
  - intros H. rewrite <- (K2 H). solve_contains.
Qed.

Lemma ServerJs_userPrompt_total (b : Body) (n : Z) :
  fully_valid b = true ->
  exists p, ServerJs.userPrompt b n = Ok p /\ mentions b n p.
Proof.
  intros H. destruct (Part000_userPrompt_total b n H) as [p [P M]].
  exists (p ++ layout_paragraph). split.
  - rewrite userPrompt_variants, P. reflexivity.
  - apply mentions_app. exact M.
Qed.

(* ------------------------------------------------------------------ *)
(** ** Fully valid requests reach the upstream *)

Lemma fully_valid_parts (b : Body) :
  fully_valid b = true ->
  exists k n, apiKey b = JStr k /\ key_present (apiKey b) = true
    /\ required_present b = true
    /\ safeCount (count b) = Ok n /\ 1 <= n <= 10.
Proof.
  intros H. pose proof H as H'. unfold fully_valid in H'.
  rewrite !andb_true_iff in H'.
  destruct H' as [[[[[[[[[[K R] _] _] _] _] _] _] _] C] _].
  destruct (safeCount_total _ C) as [n [N1 N2]].
  destruct (apiKey b) as [| | | | |k| |] eqn:A; try discriminate.
  exists k, n. repeat split; try assumption; apply N2.
Qed.

Lemma fully_valid_forward (fetch : Upstream) (b : Body) :
  fully_valid b = true ->
  exists k n pA pB,
    apiKey b = JStr k
    /\ safeCount (count b) = Ok n /\ 1 <= n <= 10
    /\ ServerJs.userPrompt b n = Ok pA /\ mentions b n pA
    /\ Part000.userPrompt b n = Ok pB /\ mentions b n pB
    /\ ServerJs.handler fetch b
       = (let c := completion_call (trim k) ServerJs.SYSTEM_PROMPT pA in
          (answer (fetch c), [c]))
    /\ Part000.handler fetch b
       = (let c := completion_call (trim k) Part000.SYSTEM_PROMPT pB in
          (answer (fetch c), [c])).
Proof.
  intros H.
  destruct (fully_valid_parts b H) as [k [n [A [K [R [C N]]]]]].
  destruct (ServerJs_userPrompt_total b n H) as [pA [PA MA]].
  destruct (Part000_userPrompt_total b n H) as [pB [PB MB]].
  exists k, n, pA, pB.
  rewrite ServerJs_two_phase, Part000_two_phase. unfold two_phase.
  rewrite (decide_forward _ _ b k n pA A K R C PA).
  rewrite (decide_forward _ _ b k n pB A K R C PB).
  exact (conj A (conj C (conj N (conj PA (conj MA (conj PB (conj MB
          (conj eq_refl eq_refl)))))))).
Qed.

(** A request of the data model that passes the two checks is fully
    valid. *)
Lemma well_typed_fully_valid (b : Body) :
  well_typed b = true -> key_present (apiKey b) = true ->
  required_present b = true -> fully_valid b = true.
Proof.
  intros W KP RP. unfold well_typed in W. rewrite !andb_true_iff in W.
  destruct W as [[[[[[[[[_ G] C] S] T] D] F] K] N] E].
  unfold fully_valid, stringable. rewrite KP, RP.
  destruct (genre b); try discriminate G.
  destruct (camera b); try discriminate C.
  destruct (stagePosition b); try discriminate S.
  destruct (playtime b); try discriminate T.
  destruct (difficulty b); try discriminate D.
  destruct (focus b); try discriminate F.
  destruct (themeKeywords b); try discriminate K;
    destruct (count b); try discriminate N;
      destruct (extraNotes b) as [| | | | |[|? ?]| |]; try discriminate E;
        reflexivity.
Qed.

(** Outside the data model: a request that passes the two checks with a
    number for [extraNotes] gets the 500 of the [catch] clause, and no
    call is made. *)
Example numeric_extraNotes :
  ServerJs.handler (reply (mkFetchResponse true (Ok []) (Ok JNull)))
    (mkBody (JStr (js "sk-test")) (JStr (js "Roguelike"))
            (JStr (js "Top-down")) (JStr (js "Mid")) (JStr (js "10 minutes"))
            (JStr (js "Hard")) (JStr (js "Combat")) JUndefined (JNum 3)
            (JNum 5))
  = (server_error (TypeError (js "extraNotes.trim is not a function")), []).
Proof. vm_compute. reflexivity. Qed.

(** C1.  The count of the prompt is the normalized count: zero, a negative
    number, a value that is not numeric and an absent value normalize to
    1; 15 to 10; 5 (and every count from 1 to 10) is unchanged; an integer
    count is clamped to the range from 1 to 10; the string "7" gives 7; a
    normalized count lies between 1 and 10; and a fully valid request is
    forwarded with a prompt built from, and showing, the normalized
    count. *)
Theorem count_normalized :
  safeCount (JNum 0) = Ok 1
  /\ (forall z, z < 0 -> safeCount (JNum z) = Ok 1)
  /\ (forall v, non_numeric v -> safeCount v = Ok 1)
  /\ safeCount JUndefined = Ok 1
  /\ safeCount (JNum 15) = Ok 10
  /\ safeCount (JNum 5) = Ok 5
  /\ (forall z, 1 <= z <= 10 -> safeCount (JNum z) = Ok z)
  /\ (forall z, safeCount (JNum z) = Ok (Z.min (Z.max z 1) 10))
  /\ safeCount (JStr (js "7")) = Ok 7
  /\ (forall v n, safeCount v = Ok n -> 1 <= n <= 10)
  /\ (forall v, stringable v = true ->
        exists n, safeCount v = Ok n /\ 1 <= n <= 10)
  /\ (forall fetch b, fully_valid b = true ->
        exists k n pA pB,
          safeCount (count b) = Ok n /\ 1 <= n <= 10
          /\ ServerJs.userPrompt b n = Ok pA
          /\ Part000.userPrompt b n = Ok pB
          /\ contains (Z_toString n) pA /\ contains (Z_toString n) pB
          /\ snd (ServerJs.handler fetch b)
             = [completion_call k ServerJs.SYSTEM_PROMPT pA]
          /\ snd (Part000.handler fetch b)
             = [completion_call k Part000.SYSTEM_PROMPT pB]).
Proof.
  split; [reflexivity|].
  split; [exact safeCount_negative|].
  split; [exact safeCount_non_numeric|].
  split; [reflexivity|].
  split; [reflexivity|].
  split; [reflexivity|].
  split; [exact safeCount_in_range|].
  split; [exact safeCount_integer|].
  split; [reflexivity|].
  split; [exact safeCount_range|].
  split; [exact safeCount_total|].
  intros fetch b H.
  destruct (fully_valid_forward fetch b H)
    as [k [n [pA [pB [A [C [N [PA [MA [PB [MB [HA HB]]]]]]]]]]]].
  exists (trim k), n, pA, pB. rewrite HA, HB.
  destruct MA as [_ [_ [_ [_ [_ [_ [MA _]]]]]]].
  destruct MB as [_ [_ [_ [_ [_ [_ [MB _]]]]]]].
  exact (conj C (conj N (conj PA (conj PB (conj MA (conj MB
          (conj eq_refl eq_refl))))))).
Qed.

Lemma count_normalized_witness :
  safeCount (JNum (-3)) = Ok 1
  /\ safeCount (JStr (js "abc")) = Ok 1
  /\ safeCount (JBool true) = Ok 1
  /\ safeCount (JNum 10) = Ok 10
  /\ 1 <= 10 <= 10
  /\ (exists n, safeCount (JStr (js " 42 levels")) = Ok n /\ 1 <= n <= 10)
  /\ (exists k n pA pB,
        safeCount (count sample_request) = Ok n /\ 1 <= n <= 10
        /\ ServerJs.userPrompt sample_request n = Ok pA
        /\ Part000.userPrompt sample_request n = Ok pB
        /\ contains (Z_toString n) pA /\ contains (Z_toString n) pB
        /\ snd (ServerJs.handler (reply (mkFetchResponse true (Ok []) (Ok JNull)))
                  sample_request)
           = [completion_call k ServerJs.SYSTEM_PROMPT pA]
        /\ snd (Part000.handler (reply (mkFetchResponse true (Ok []) (Ok JNull)))
                  sample_request)
           = [completion_call k Part000.SYSTEM_PROMPT pB]).
Proof.
  destruct count_normalized
    as [_ [Neg [NonNum [_ [_ [_ [InRange [_ [_ [Range [Total Valid]]]]]]]]]]].
  split; [apply Neg; lia|].
  split; [apply NonNum; exists (js "abc"); split; reflexivity|].
  split; [apply NonNum; exists (js "true"); split; reflexivity|].
  split; [apply InRange; lia|].
  split; [apply (Range (JNum 15) 10); reflexivity|].
  split; [apply Total; reflexivity|].
  apply Valid. reflexivity.
Defined.

(** C5.  For a fully valid request the user prompt that is sent upstream
    contains the string of each of genre, camera, stagePosition, playtime,
    difficulty and focus, and the normalized count; when [extraNotes] is
    absent or blank it contains "No additional notes.", and when
    [themeKeywords] is absent it contains "none"; in both variants. *)
Theorem prompt_contains_fields (fetch : Upstream) (b : Body) :
  fully_valid b = true ->
  exists k n pA pB,
    safeCount (count b) = Ok n
    /\ snd (ServerJs.handler fetch b)
       = [completion_call k ServerJs.SYSTEM_PROMPT pA]
    /\ snd (Part000.handler fetch b)
       = [completion_call k Part000.SYSTEM_PROMPT pB]
    /\ mentions b n pA /\ mentions b n pB.
Proof.
  intros H.
  destruct (fully_valid_forward fetch b H)
    as [k [n [pA [pB [A [C [N [PA [MA [PB [MB [HA HB]]]]]]]]]]]].
  exists (trim k), n, pA, pB. rewrite HA, HB.
  exact (conj C (conj eq_refl (conj eq_refl (conj MA MB)))).
Qed.

Lemma prompt_contains_fields_witness :
  exists k n pA pB,
    safeCount (count sample_request) = Ok n
    /\ snd (ServerJs.handler (reply (mkFetchResponse true (Ok []) (Ok JNull)))
              sample_request)
       = [completion_call k ServerJs.SYSTEM_PROMPT pA]
    /\ snd (Part000.handler (reply (mkFetchResponse true (Ok []) (Ok JNull)))
              sample_request)
       = [completion_call k Part000.SYSTEM_PROMPT pB]
    /\ mentions sample_request n pA /\ mentions sample_request n pB.
Proof.
  apply (prompt_contains_fields
           (reply (mkFetchResponse true (Ok []) (Ok JNull))) sample_request).
  reflexivity.
Defined.

(** C8.  For a fully valid request exactly one outbound call is made: a
    POST whose Authorization header is "Bearer " followed by the trimmed
    [apiKey] of the request, and whose body has the model "gpt-4o-mini",
    two messages (the system prompt of the variant, then the user prompt),
    temperature 0.7 and max_tokens 2800. *)
Theorem one_outbound_call (fetch : Upstream) (b : Body) :
  fully_valid b = true ->
  exists k n pA pB,
    apiKey b = JStr k
    /\ safeCount (count b) = Ok n
    /\ ServerJs.userPrompt b n = Ok pA
    /\ Part000.userPrompt b n = Ok pB
    /\ snd (ServerJs.handler fetch b)
       = [mkCall (js "https://api.openai.com/v1/chat/completions")
                 (js "POST")
                 [(js "Authorization", js "Bearer " ++ trim k);
                  (js "Content-Type", js "application/json")]
                 (mkCompletion (js "gpt-4o-mini")
                    [mkMessage (js "system") ServerJs.SYSTEM_PROMPT;
                     mkMessage (js "user") pA]
                    0.7 2800)]
    /\ snd (Part000.handler fetch b)
       = [mkCall (js "https://api.openai.com/v1/chat/completions")
                 (js "POST")
                 [(js "Authorization", js "Bearer " ++ trim k);
                  (js "Content-Type", js "application/json")]
                 (mkCompletion (js "gpt-4o-mini")
                    [mkMessage (js "system") Part000.SYSTEM_PROMPT;
                     mkMessage (js "user") pB]
                    0.7 2800)].
Proof.
  intros H.
  destruct (fully_valid_forward fetch b H)
    as [k [n [pA [pB [A [C [N [PA [MA [PB [MB [HA HB]]]]]]]]]]]].
  exists k, n, pA, pB. rewrite HA, HB.
  exact (conj A (conj C (conj PA (conj PB (conj eq_refl eq_refl))))).
Qed.

Lemma one_outbound_call_witness :
  exists pA,
    snd (ServerJs.handler (reply (mkFetchResponse true (Ok []) (Ok JNull)))
           sample_request)
    = [mkCall (js "https://api.openai.com/v1/chat/completions")
              (js "POST")
              [(js "Authorization", js "Bearer sk-test");
               (js "Content-Type", js "application/json")]
              (mkCompletion (js "gpt-4o-mini")
                 [mkMessage (js "system") ServerJs.SYSTEM_PROMPT;
                  mkMessage (js "user") pA]
                 0.7 2800)].
Proof.
  destruct (one_outbound_call
              (reply (mkFetchResponse true (Ok []) (Ok JNull)))
              sample_request eq_refl)
    as [k [n [pA [pB [A [_ [_ [_ [HA _]]]]]]]]].
  exists pA. rewrite HA.
  injection A as <-. reflexivity.
Defined.

(* ------------------------------------------------------------------ *)
(** ** Answers *)


Lemma variant_answer h (fetch : Upstream) (b : Body) (c : OutboundCall) :
  variant h -> In c (snd (h fetch b)) -> fst (h fetch b) = answer (fetch c).
Proof.
  intros [-> | ->].
  - rewrite ServerJs_two_phase. apply two_phase_answer.
  - rewrite Part000_two_phase. apply two_phase_answer.
Qed.

(** C6.  When the upstream call completes with a status that is not a
    success, the response is 500 with the body
    [{ error: "OpenAI API error", detail }], [detail] being the text of the
    upstream body as it is. *)
Theorem upstream_failure_relayed h (fetch : Upstream) (b : Body)
    (c : OutboundCall) (r : FetchResponse) (errorText : jsstring) :
  variant h ->
  In c (snd (h fetch b)) ->
  fetch c = Ok r -> ok r = false -> text r = Ok errorText ->
  fst (h fetch b)
  = mkResponse 500 (JObj [(js "error", JStr (js "OpenAI API error"));
                          (js "detail", JStr errorText)]).
Proof.
  intros V I F O T. rewrite (variant_answer h fetch b c V I).
  unfold answer. rewrite F, O, T. reflexivity.
Qed.

Lemma upstream_failure_relayed_witness :
  let rate_limited :=
    mkFetchResponse false (Ok (js "rate limited"))
                    (Throw (SyntaxError (js "Unexpected token r in JSON"))) in
  fst (ServerJs.handler (reply rate_limited) sample_request)
  = mkResponse 500 (JObj [(js "error", JStr (js "OpenAI API error"));
                          (js "detail", JStr (js "rate limited"))]).
Proof.
  intros rate_limited.
  apply (upstream_failure_relayed ServerJs.handler (reply rate_limited)
           sample_request
           (hd (completion_call [] [] [])
               (snd (ServerJs.handler (reply rate_limited) sample_request)))
           rate_limited (js "rate limited")).
  - left. reflexivity.
  - vm_compute. left. reflexivity.
  - reflexivity.
  - reflexivity.
  - reflexivity.
Defined.

(* ------------------------------------------------------------------ *)
(** ** The content path *)


Lemma walk_named (v : value) (k : jsstring) :
  index_of_key k = None -> jsstring_eqb k (js "length") = false ->
  walk v k = member_or_undefined v k.
Proof.
  intros I L. unfold walk, opt_get, member_or_undefined, own_member, get_prop.
  destruct v; cbn [nullish]; rewrite ?I, ?L; reflexivity.
Qed.

Lemma walk_first_named (v : value) (k : jsstring) :
  index_of_key k = None -> jsstring_eqb k (js "length") = false ->
  walk (walk v (js "0")) k
  = member_or_undefined (member_or_undefined v (js "0")) k.
Proof.
  intros I L. rewrite (walk_named _ k I L).
  assert (Z0 : index_of_key (js "0") = Some O) by (vm_compute; reflexivity).
  assert (L0 : jsstring_eqb (js "0") (js "length") = false)
    by (vm_compute; reflexivity).
  destruct v;
    unfold walk, opt_get, get_prop, member_or_undefined, own_member;
    cbn [nullish]; rewrite ?Z0, ?L0; try reflexivity.
  - destruct (nth_error s 0); reflexivity.
  - destruct elems; reflexivity.
Qed.

Lemma member_or_undefined_path (data : value) :
  member_or_undefined
    (member_or_undefined
       (member_or_undefined (member_or_undefined data (js "choices"))
                            (js "0"))
       (js "message"))
    (js "content")
  = match path_lookup data content_path with
    | Some v => v
    | None => JUndefined
    end.
Proof.
  unfold content_path, path_lookup, member_or_undefined.
  destruct (own_member data (js "choices")) as [w1|]; [|reflexivity].
  destruct (own_member w1 (js "0")) as [w2|]; [|reflexivity].
  destruct (own_member w2 (js "message")) as [w3|]; [|reflexivity].
  destruct (own_member w3 (js "content")); reflexivity.
Qed.

Lemma extract_content_path (data : value) :
  nullish data = false ->
  extract_content data
  = Ok (or_else match path_lookup data content_path with
                | Some v => v
                | None => JUndefined
                end (JStr [])).
Proof.
  intros N. rewrite <- member_or_undefined_path.
  assert (I1 : index_of_key (js "choices") = None) by (vm_compute; reflexivity).
  assert (L1 : jsstring_eqb (js "choices") (js "length") = false)
    by (vm_compute; reflexivity).
  assert (I2 : index_of_key (js "message") = None) by (vm_compute; reflexivity).
  assert (L2 : jsstring_eqb (js "message") (js "length") = false)
    by (vm_compute; reflexivity).
  assert (I3 : index_of_key (js "content") = None) by (vm_compute; reflexivity).
  assert (L3 : jsstring_eqb (js "content") (js "length") = false)
    by (vm_compute; reflexivity).
  rewrite <- (walk_named _ _ I3 L3).
  rewrite <- (walk_first_named _ _ I2 L2).
  rewrite <- (walk_named data _ I1 L1).
  unfold extract_content, get, rbind.
  replace (walk data (js "choices")) with (get_prop data (js "choices"))
    by (unfold walk, opt_get; rewrite N; reflexivity).
  destruct data; try discriminate N; f_equal; f_equal;
    unfold walk;
    destruct (opt_get _ (js "0")) as [first|]; try reflexivity;
    destruct (opt_get first (js "message")) as [message|]; reflexivity.
Qed.

(** C4, as the code has it.  On an upstream success whose body parses to a
    JSON value other than [null]: when choices[0].message.content is
    missing (a member of the path is absent) or holds a falsy value
    ([null], [false], zero, the empty string) the response is 200 with
    [content] the empty string; when the path holds a text the response
    is 200 with [content] that text, unchanged. *)
Theorem content_extracted h (fetch : Upstream) (b : Body)
    (c : OutboundCall) (r : FetchResponse) (data : value) :
  variant h ->
  In c (snd (h fetch b)) ->
  fetch c = Ok r -> ok r = true -> json r = Ok data ->
  nullish data = false ->
  (path_lookup data content_path = None ->
   fst (h fetch b) = mkResponse 200 (JObj [(js "content", JStr [])]))
  /\ (forall v, path_lookup data content_path = Some v -> truthy v = false ->
      fst (h fetch b) = mkResponse 200 (JObj [(js "content", JStr [])]))
  /\ (forall t, path_lookup data content_path = Some (JStr t) ->
      fst (h fetch b) = mkResponse 200 (JObj [(js "content", JStr t)])).
Proof.
  intros V I F O J N. rewrite (variant_answer h fetch b c V I).
  unfold answer. rewrite F, O, J. cbn [negb].
  rewrite (extract_content_path data N).
  split; [|split].
  - intros ->. reflexivity.
  - intros v -> T. unfold or_else. rewrite T. reflexivity.
  - intros t ->. destruct t; reflexivity.
Qed.

Lemma content_extracted_witness :
  let hello := mkFetchResponse true (Ok [])
                 (Ok (envelope (JStr (js "## Level 1: Foundry")))) in
  let empty := mkFetchResponse true (Ok []) (Ok (JObj [(js "choices", JArr [])])) in
  fst (Part000.handler (reply hello) sample_request)
  = mkResponse 200 (JObj [(js "content", JStr (js "## Level 1: Foundry"))])
  /\ fst (Part000.handler (reply empty) sample_request)
     = mkResponse 200 (JObj [(js "content", JStr [])]).
Proof.
  intros hello empty. split.
  - refine (proj2 (proj2 (content_extracted Part000.handler (reply hello)
             sample_request
             (hd (completion_call [] [] [])
                 (snd (Part000.handler (reply hello) sample_request)))
             hello (envelope (JStr (js "## Level 1: Foundry")))
             _ _ _ _ _ _)) (js "## Level 1: Foundry") _).
    + right. reflexivity.
    + vm_compute. left. reflexivity.
    + reflexivity.
    + reflexivity.
    + reflexivity.
    + reflexivity.
    + vm_compute. reflexivity.
  - refine (proj1 (content_extracted Part000.handler (reply empty)
             sample_request
             (hd (completion_call [] [] [])
                 (snd (Part000.handler (reply empty) sample_request)))
             empty (JObj [(js "choices", JArr [])])
             _ _ _ _ _ _) _).
    + right. reflexivity.
    + vm_compute. left. reflexivity.
    + reflexivity.
    + reflexivity.
    + reflexivity.
    + reflexivity.
    + vm_compute. reflexivity.
Defined.

(** C4, as stated, fails.  The request is fully valid and the upstream
    answers with a success status.  When the body is the JSON value [null]
    the path is missing and the response is the 500 of the [catch] clause;
    when the path holds the number 42 the response is 200 with [content]
    42 and not the empty string. *)
Lemma content_path_counterexample :
  let null_body := mkFetchResponse true (Ok (js "null")) (Ok JNull) in
  let number_content := mkFetchResponse true (Ok []) (Ok (envelope (JNum 42))) in
  fully_valid sample_request = true
  /\ path_lookup JNull content_path = None
  /\ fst (ServerJs.handler (reply null_body) sample_request)
     = server_error
         (TypeError (js "Cannot read properties of null (reading 'choices')"))
  /\ fst (ServerJs.handler (reply null_body) sample_request)
     <> mkResponse 200 (JObj [(js "content", JStr [])])
  /\ path_lookup (envelope (JNum 42)) content_path = Some (JNum 42)
  /\ fst (ServerJs.handler (reply number_content) sample_request)
     = mkResponse 200 (JObj [(js "content", JNum 42)])
  /\ fst (ServerJs.handler (reply number_content) sample_request)
     <> mkResponse 200 (JObj [(js "content", JStr [])]).
Proof.
  intros null_body number_content.
  split; [reflexivity|].
  split; [reflexivity|].
  split; [vm_compute; reflexivity|].
  split; [intros H; vm_compute in H; discriminate H|].
  split; [vm_compute; reflexivity|].
  split; [vm_compute; reflexivity|].
  intros H; vm_compute in H; discriminate H.
Qed.

(* ------------------------------------------------------------------ *)
(** ** The two variants *)

Lemma system_prompts_differ :
  ServerJs.SYSTEM_PROMPT <> Part000.SYSTEM_PROMPT.
Proof.
  intros H. apply (f_equal (@List.length code_unit)) in H.
  vm_compute in H. discriminate H.
Qed.

(** C10.  The two variants agree on validation, count normalization,
    error responses and response extraction.  For every request, either
    neither makes an outbound call and the two responses are equal, or
    each makes exactly one call; the two calls have the same url, method,
    headers, model, temperature and max_tokens, and differ in the system
    prompt and in the layout paragraph that ends the user prompt of
    [src/server.js]; and when the upstream gives the two calls the same
    outcome the two responses are equal. *)
Theorem variants_equivalent (fetchA fetchB : Upstream) (b : Body) :
  (snd (ServerJs.handler fetchA b) = []
   /\ snd (Part000.handler fetchB b) = []
   /\ fst (ServerJs.handler fetchA b) = fst (Part000.handler fetchB b))
  \/ (exists k p cA cB,
        snd (ServerJs.handler fetchA b) = [cA]
        /\ snd (Part000.handler fetchB b) = [cB]
        /\ cA = completion_call k ServerJs.SYSTEM_PROMPT (p ++ layout_paragraph)
        /\ cB = completion_call k Part000.SYSTEM_PROMPT p
        /\ url cA = url cB /\ method cA = method cB
        /\ headers cA = headers cB
        /\ model (body cA) = model (body cB)
        /\ temperature (body cA) = temperature (body cB)
        /\ max_tokens (body cA) = max_tokens (body cB)
        /\ messages (body cA)
           = [mkMessage (js "system") ServerJs.SYSTEM_PROMPT;
              mkMessage (js "user") (p ++ layout_paragraph)]
        /\ messages (body cB)
           = [mkMessage (js "system") Part000.SYSTEM_PROMPT;
              mkMessage (js "user") p]
        /\ (fetchA cA = fetchB cB ->
            fst (ServerJs.handler fetchA b) = fst (Part000.handler fetchB b))).
Proof.
  rewrite ServerJs_two_phase, Part000_two_phase.
  unfold two_phase, decide_request.
  destruct (key_blank (apiKey b)) as [[|]|e];
    [left; exact (conj eq_refl (conj eq_refl eq_refl)) | |
     left; exact (conj eq_refl (conj eq_refl eq_refl))].
  destruct (negb (required_present b));
    [left; exact (conj eq_refl (conj eq_refl eq_refl))|].
  destruct (safeCount (count b)) as [n|e];
    [|left; exact (conj eq_refl (conj eq_refl eq_refl))].
  rewrite userPrompt_variants. unfold rbind.
  destruct (Part000.userPrompt b n) as [p|e];
    [|left; exact (conj eq_refl (conj eq_refl eq_refl))].
  destruct (trim_method (js "apiKey") (apiKey b)) as [k|e];
    [|left; exact (conj eq_refl (conj eq_refl eq_refl))].
  right.
  generalize ServerJs.SYSTEM_PROMPT, Part000.SYSTEM_PROMPT, layout_paragraph.
  intros sA sB extra.
  exists k, p, (completion_call k sA (p ++ extra)), (completion_call k sB p).
  unfold completion_call.
  cbn [url method headers body model temperature max_tokens messages fst snd].
  do 12 (split; [exact eq_refl|]).
  intros ->. exact eq_refl.
Qed.

(* ------------------------------------------------------------------ *)
(** ** More on trimming *)

Lemma trimStart_head (s : jsstring) :
  match trimStart s with c :: _ => is_ws c = false | [] => True end.
Proof.
  induction s as [|c s IH]; cbn [trimStart]; [exact I|].
  destruct (is_ws c) eqn:E; [exact IH | exact E].
Qed.

Lemma trimStart_fixed (s : jsstring) :
  match s with c :: _ => is_ws c = false | [] => True end ->
  trimStart s = s.
Proof.
  destruct s as [|c s]; [reflexivity|]. cbn [trimStart]. intros ->.
  reflexivity.
Qed.

Lemma trimStart_idem (s : jsstring) : trimStart (trimStart s) = trimStart s.
Proof. apply trimStart_fixed, trimStart_head. Qed.

Lemma trimStart_app_ws (a r : jsstring) :
  has_nonws a = false -> trimStart (a ++ r) = trimStart r.
Proof.
  induction a as [|c a IH]; [reflexivity|].
  cbn [has_nonws existsb app trimStart].
  destruct (is_ws c); cbn [negb orb]; [exact IH | discriminate].
Qed.

Lemma trimEnd_idem (s : jsstring) : trimEnd (trimEnd s) = trimEnd s.
Proof.
  unfold trimEnd. rewrite rev_involutive, trimStart_idem. reflexivity.
Qed.

Lemma trimEnd_head (c : code_unit) (t : jsstring) :
  is_ws c = false -> exists t', trimEnd (c :: t) = c :: t'.
Proof.
  intros W. destruct (has_nonws t) eqn:E.
  - exists (trimEnd t). apply (trimEnd_app [c] t E).
  - exists []. unfold trimEnd. cbn [rev].
    rewrite trimStart_app_ws by (rewrite has_nonws_rev; exact E).
    cbn [trimStart]. rewrite W. reflexivity.
Qed.

Lemma trim_head (s : jsstring) :
  match trim s with c :: _ => is_ws c = false | [] => True end.
Proof.
  unfold trim. pose proof (trimStart_head s) as H.
  destruct (trimStart s) as [|c t]; [exact I|].
  destruct (trimEnd_head c t H) as [t' ->]. exact H.
Qed.

Lemma trim_last (s : jsstring) :
  trim s <> [] -> is_ws (last (trim s) 0%N) = false.
Proof.
  unfold trim, trimEnd. pose proof (trimStart_head (rev (trimStart s))) as H.
  destruct (trimStart (rev (trimStart s))) as [|c u].
  - intros N. contradiction N. reflexivity.
  - intros _. cbn [rev]. rewrite last_last. exact H.
Qed.

Lemma trim_idem (s : jsstring) : trim (trim s) = trim s.
Proof.
  unfold trim at 1.
  rewrite (trimStart_fixed (trim s) (trim_head s)).
  unfold trim. apply trimEnd_idem.
Qed.

(* ------------------------------------------------------------------ *)
(** ** Failures of the conversions *)

(** The only failure of ToString on a parsed value. *)
Lemma toString_throw (v : value) :
  forall e : exn, toString v = Throw e -> e = no_primitive.
Proof.
  induction v as [| |b|z|r|s|elems IH|props _] using value_induction;
    cbn [toString]; try discriminate.
  - destruct b; discriminate.
  - induction IH as [|x rest Hx _ IHrest]; [discriminate|].
    intros e.
    assert (X : forall e', match x with
                           | JUndefined | JNull => Ok []
                           | _ => toString x
                           end = Throw e' -> e' = no_primitive).
    { intros e'. destruct x; try discriminate; apply Hx. }
    destruct rest as [|y rest'].
    + apply X.
    + destruct (match x with
                | JUndefined | JNull => Ok []
                | _ => toString x
                end) as [sx|ex].
      * match goal with
        | |- match ?j with _ => _ end = _ -> _ =>
          destruct j as [sr|er] eqn:Er
        end.
        -- discriminate.
        -- intros H. injection H as <-. apply IHrest. reflexivity.
      * intros H. injection H as <-. apply (X ex). reflexivity.
  - intros e. destruct (has_key (js "toString") props); [|discriminate].
    intros H. injection H as <-. reflexivity.
Qed.

Lemma stringable_false (v : value) :
  stringable v = false -> toString v = Throw no_primitive.
Proof.
  unfold stringable. destruct (toString v) as [s|e] eqn:E; [discriminate|].
  intros _. rewrite (toString_throw v e E). reflexivity.
Qed.

Lemma falsy_stringable (v : value) : truthy v = false -> stringable v = true.
Proof. destruct v as [| |[|]| | | | |]; try discriminate; reflexivity. Qed.

(* ------------------------------------------------------------------ *)
(** ** Every response and every call *)

Lemma variant_two_phase h :
  variant h ->
  exists systemPrompt prompt,
    (forall fetch b, h fetch b = two_phase systemPrompt prompt fetch b)
    /\ ((forall b n, prompt b n = Part000.userPrompt b n)
        \/ (forall b n,
              prompt b n
              = (let? p := Part000.userPrompt b n in
                 Ok (p ++ layout_paragraph))%result)).
Proof.
  intros [-> | ->].
  - exists ServerJs.SYSTEM_PROMPT, ServerJs.userPrompt. split.
    + apply ServerJs_two_phase.
    + right. intros b n. apply userPrompt_variants.
  - exists Part000.SYSTEM_PROMPT, Part000.userPrompt. split.
    + apply Part000_two_phase.
    + left. intros b n. reflexivity.
Qed.

Lemma error_key_facts :
  jsstring_eqb (js "error") (js "error") = true
  /\ jsstring_eqb (js "error") (js "detail") = false
  /\ jsstring_eqb (js "error") (js "message") = false.
Proof. vm_compute. repeat split. Qed.

Lemma error_body_server_error (e : exn) : error_body (payload (server_error e)).
Proof.
  destruct error_key_facts as [E1 [E2 _]].
  unfold server_error, error_body. cbn [payload].
  eexists. eexists. split; [reflexivity|].
  cbn [lookup_last]. rewrite E1, E2. reflexivity.
Qed.

Lemma error_body_upstream_error (t : jsstring) :
  error_body (payload (upstream_error t)).
Proof.
  destruct error_key_facts as [E1 [E2 _]].
  unfold upstream_error, error_body. cbn [payload].
  eexists. eexists. split; [reflexivity|].
  cbn [lookup_last]. rewrite E1, E2. reflexivity.
Qed.

Lemma error_body_rejections :
  error_body (payload missing_credential)
  /\ error_body (payload missing_fields).
Proof.
  destruct error_key_facts as [E1 [_ E3]].
  unfold missing_credential, missing_fields, error_body. cbn [payload].
  split; (eexists; eexists; split; [reflexivity|]);
    cbn [lookup_last]; rewrite ?E1, ?E3; reflexivity.
Qed.

Lemma or_else_empty (x : value) :
  truthy (or_else x (JStr [])) = true \/ or_else x (JStr []) = JStr [].
Proof.
  unfold or_else. destruct (truthy x) eqn:T; [left; exact T|].
  right. reflexivity.
Qed.

Lemma answer_well_formed (o : result FetchResponse) :
  well_formed_response (answer o).
Proof.
  unfold answer.
  destruct o as [r|e];
    [|right; split; [right; reflexivity | apply error_body_server_error]].
  destruct (ok r); cbn [negb].
  - destruct (json r) as [data|e];
      [|right; split; [right; reflexivity | apply error_body_server_error]].
    destruct (extract_content data) as [v|e] eqn:E;
      [|right; split; [right; reflexivity | apply error_body_server_error]].
    left. split; [reflexivity|]. exists v. split; [reflexivity|].
    unfold extract_content, rbind in E.
    destruct (get data (js "choices")); [|discriminate].
    injection E as <-. apply or_else_empty.
  - destruct (text r) as [t|e];
      right; (split; [right; reflexivity|]);
      [apply error_body_upstream_error | apply error_body_server_error].
Qed.

(** X1.  Whatever the request and the upstream, a handler makes at most
    one outbound call. *)
Theorem at_most_one_call h (fetch : Upstream) (b : Body) :
  variant h -> (List.length (snd (h fetch b)) <= 1)%nat.
Proof.
  intros V. destruct (variant_two_phase h V) as [sys [prompt [E _]]].
  rewrite E. unfold two_phase.
  destruct (decide_request sys prompt b); cbn [snd List.length]; lia.
Qed.

Lemma at_most_one_call_witness :
  (List.length
     (snd (ServerJs.handler
             (reply (mkFetchResponse false (Ok (js "rate limited"))
                       (Throw (SyntaxError []))))
             sample_request)) <= 1)%nat.
Proof. apply at_most_one_call. left. reflexivity. Defined.

(** X2.  Every response of a handler is a 200 whose body is
    [{ content }], the content being a truthy value or the empty string
    (never [null] or [undefined]), or a 400 or 500 whose body is an object
    with a string under [error]. *)
Theorem response_well_formed h (fetch : Upstream) (b : Body) :
  variant h -> well_formed_response (fst (h fetch b)).
Proof.
  intros V. destruct (variant_two_phase h V) as [sys [prompt [E _]]].
  rewrite E. unfold two_phase, decide_request.
  destruct (key_blank (apiKey b)) as [[|]|e]; cbn [fst].
  - right. split; [left; reflexivity | apply error_body_rejections].
  - destruct (negb (required_present b)); cbn [fst];
      [right; split; [left; reflexivity | apply error_body_rejections]|].
    destruct (safeCount (count b)) as [n|e]; cbn [fst];
      [|right; split; [right; reflexivity | apply error_body_server_error]].
    destruct (prompt b n) as [p|e]; cbn [fst];
      [|right; split; [right; reflexivity | apply error_body_server_error]].
    destruct (trim_method (js "apiKey") (apiKey b)) as [k|e]; cbn [fst];
      [|right; split; [right; reflexivity | apply error_body_server_error]].
    apply answer_well_formed.
  - right. split; [right; reflexivity | apply error_body_server_error].
Qed.

Lemma response_well_formed_witness :
  well_formed_response
    (fst (Part000.handler
            (reply (mkFetchResponse true (Ok []) (Ok (envelope (JNum 0)))))
            sample_request)).
Proof. apply response_well_formed. right. reflexivity. Defined.

Lemma answer_status (o : result FetchResponse) :
  status (answer o) <> 400
  /\ (status (answer o) = 200 ->
      exists r data v,
        o = Ok r /\ ok r = true /\ json r = Ok data
        /\ extract_content data = Ok v /\ answer o = success v).
Proof.
  unfold answer. destruct o as [r|e]; [|split; [discriminate|discriminate]].
  destruct (ok r) eqn:O; cbn [negb].
  - destruct (json r) as [data|e] eqn:J; [|split; discriminate].
    destruct (extract_content data) as [v|e] eqn:X; [|split; discriminate].
    split; [discriminate|]. intros _. exists r, data, v.
    repeat split; assumption.
  - destruct (text r); split; discriminate.
Qed.

(** X3.  A 400 is answered without any outbound call, and a 200 only
    after exactly one call that the upstream answered with a success
    status and a body that parses: no request is forwarded before it has
    passed the two checks, and no success is reported without the
    upstream. *)
Theorem status_and_calls h (fetch : Upstream) (b : Body) :
  variant h ->
  (status (fst (h fetch b)) = 400 -> snd (h fetch b) = [])
  /\ (status (fst (h fetch b)) = 200 ->
      exists c r data v,
        snd (h fetch b) = [c] /\ fetch c = Ok r /\ ok r = true
        /\ json r = Ok data /\ extract_content data = Ok v
        /\ payload (fst (h fetch b)) = JObj [(js "content", v)]).
Proof.
  intros V. destruct (variant_two_phase h V) as [sys [prompt [E _]]].
  rewrite E. unfold two_phase.
  destruct (decide_request sys prompt b) as [r|e|c] eqn:D; cbn [fst snd].
  - split; [reflexivity|].
    unfold decide_request in D.
    destruct (key_blank (apiKey b)) as [[|]|]; try discriminate D.
    + injection D as <-. discriminate.
    + destruct (negb (required_present b)).
      * injection D as <-. discriminate.
      * destruct (safeCount (count b)) as [n|]; try discriminate D.
        destruct (prompt b n); try discriminate D.
        destruct (trim_method (js "apiKey") (apiKey b)); discriminate D.
  - split; discriminate.
  - destruct (answer_status (fetch c)) as [A1 A2]. split.
    + intros H. contradiction.
    + intros H. destruct (A2 H) as [r [data [v [F [O [J [X A]]]]]]].
      exists c, r, data, v. rewrite A.
      repeat split; assumption.
Qed.

Lemma status_and_calls_witness :
  snd (ServerJs.handler (reply (mkFetchResponse true (Ok []) (Ok JNull)))
         (mkBody (JStr (js "sk-test")) (JStr (js "Roguelike")) JUndefined
                 JUndefined JUndefined JUndefined JUndefined JUndefined
                 (JNum 3) JUndefined))
  = [].
Proof.
  refine (proj1 (status_and_calls ServerJs.handler _ _ _) _).
  - left. reflexivity.
  - vm_compute. reflexivity.
Defined.

(** X4.  When the call cannot be completed ([fetch] rejects), the response
    is the 500 of the [catch] clause with the message of the failure as
    [detail]; the call is not made again. *)
Theorem transport_failure h (fetch : Upstream) (b : Body)
    (c : OutboundCall) (e : exn) :
  variant h ->
  In c (snd (h fetch b)) -> fetch c = Throw e ->
  h fetch b
  = (mkResponse 500 (JObj [(js "error", JStr (js "Server error"));
                           (js "detail", JStr (exn_message e))]),
     [c]).
Proof.
  intros V I F. destruct (variant_two_phase h V) as [sys [prompt [E _]]].
  rewrite E in *. unfold two_phase in *.
  destruct (decide_request sys prompt b) as [r|e'|c'];
    cbn [snd] in I; try contradiction.
  destruct I as [-> | []]. rewrite F. reflexivity.
Qed.

Lemma transport_failure_witness :
  let down : Upstream := fun _ => Throw (FetchError (js "ECONNREFUSED")) in
  fst (Part000.handler down sample_request)
  = mkResponse 500 (JObj [(js "error", JStr (js "Server error"));
                          (js "detail", JStr (js "ECONNREFUSED"))]).
Proof.
  intros down.
  refine (f_equal fst
            (transport_failure Part000.handler down sample_request
               (hd (completion_call [] [] [])
                   (snd (Part000.handler down sample_request)))
               (FetchError (js "ECONNREFUSED")) _ _ _)).
  - right. reflexivity.
  - vm_compute. left. reflexivity.
  - reflexivity.
Defined.

(** X5.  When the body of the upstream response cannot be read, the
    response is the 500 of the [catch] clause: a success status whose body
    is not JSON, a success status whose body is the JSON value [null], and
    a failure status whose text cannot be read. *)
Theorem unreadable_upstream_body h (fetch : Upstream) (b : Body)
    (c : OutboundCall) (r : FetchResponse) :
  variant h ->
  In c (snd (h fetch b)) -> fetch c = Ok r ->
  (forall e, ok r = true -> json r = Throw e ->
             fst (h fetch b) = server_error e)
  /\ (ok r = true -> json r = Ok JNull ->
      fst (h fetch b)
      = server_error
          (TypeError (js "Cannot read properties of null (reading 'choices')")))
  /\ (forall e, ok r = false -> text r = Throw e ->
                fst (h fetch b) = server_error e).
Proof.
  intros V I F. rewrite (variant_answer h fetch b c V I).
  unfold answer. rewrite F.
  split; [|split].
  - intros e -> ->. reflexivity.
  - intros -> ->. vm_compute. reflexivity.
  - intros e -> ->. reflexivity.
Qed.

Lemma unreadable_upstream_body_witness :
  let html := mkFetchResponse true (Ok (js "<html>Bad gateway</html>"))
                (Throw (SyntaxError (js "Unexpected token < in JSON"))) in
  fst (ServerJs.handler (reply html) sample_request)
  = server_error (SyntaxError (js "Unexpected token < in JSON")).
Proof.
  intros html.
  refine (proj1 (unreadable_upstream_body ServerJs.handler (reply html)
                   sample_request
                   (hd (completion_call [] [] [])
                       (snd (ServerJs.handler (reply html) sample_request)))
                   html _ _ _) _ _ _).
  - left. reflexivity.
  - vm_compute. left. reflexivity.
  - reflexivity.
  - reflexivity.
  - reflexivity.
Defined.

(** X6.  On an upstream success whose body is not [null], any truthy value
    at choices[0].message.content (a number, an object, an array, not only
    a text) is returned as [content], as it is. *)
Theorem truthy_content_passed_through h (fetch : Upstream) (b : Body)
    (c : OutboundCall) (r : FetchResponse) (data v : value) :
  variant h ->
  In c (snd (h fetch b)) ->
  fetch c = Ok r -> ok r = true -> json r = Ok data ->
  nullish data = false ->
  path_lookup data content_path = Some v -> truthy v = true ->
  fst (h fetch b) = mkResponse 200 (JObj [(js "content", v)]).
Proof.
  intros V I F O J N P T. rewrite (variant_answer h fetch b c V I).
  unfold answer. rewrite F, O, J. cbn [negb].
  rewrite (extract_content_path data N), P. unfold or_else. rewrite T.
  reflexivity.
Qed.

Lemma truthy_content_passed_through_witness :
  let parts := JArr [JObj [(js "type", JStr (js "text"))]] in
  let structured := mkFetchResponse true (Ok []) (Ok (envelope parts)) in
  fst (Part000.handler (reply structured) sample_request)
  = mkResponse 200 (JObj [(js "content", parts)]).
Proof.
  intros parts structured.
  refine (truthy_content_passed_through Part000.handler (reply structured)
            sample_request
            (hd (completion_call [] [] [])
                (snd (Part000.handler (reply structured) sample_request)))
            structured (envelope parts) parts _ _ _ _ _ _ _ _).
  - right. reflexivity.
  - vm_compute. left. reflexivity.
  - reflexivity.
  - reflexivity.
  - reflexivity.
  - reflexivity.
  - vm_compute. reflexivity.
  - reflexivity.
Defined.

(* ------------------------------------------------------------------ *)
(** ** Which requests are forwarded, and with what *)

Lemma Ok_inj {A} (x y : A) : Ok x = Ok y -> x = y.
Proof. intros H. injection H as H. exact H. Qed.

Lemma key_blank_false (v : value) :
  key_blank v = Ok false ->
  exists k, v = JStr k /\ trim k <> [] /\ key_present v = true
            /\ trim_method (js "apiKey") v = Ok (trim k).
Proof.
  unfold key_blank. destruct (truthy v) eqn:T; cbn [negb]; [|discriminate].
  destruct v; try discriminate.
  cbn [trim_method rbind key_present].
  destruct (trim s) as [|c t] eqn:E; [discriminate|].
  intros _. exists s. rewrite E. repeat split. discriminate.
Qed.

Lemma extra_notes_inv (v : value) (s : jsstring) :
  extra_notes v = Ok s -> negb (truthy v) || is_string v = true.
Proof.
  unfold extra_notes. destruct (truthy v); [|reflexivity].
  destruct v; try discriminate; reflexivity.
Qed.

Lemma theme_inv (v : value) (s : jsstring) :
  toString (or_else v (JStr (js "none"))) = Ok s -> stringable v = true.
Proof.
  unfold or_else. destruct (truthy v) eqn:T.
  - unfold stringable. intros ->. reflexivity.
  - intros _. apply falsy_stringable. exact T.
Qed.

Lemma Part000_userPrompt_inv (b : Body) (n : Z) (p : jsstring) :
  Part000.userPrompt b n = Ok p ->
  exists th notes,
    stringable (genre b) = true /\ stringable (camera b) = true
    /\ stringable (stagePosition b) = true /\ stringable (playtime b) = true
    /\ stringable (difficulty b) = true /\ stringable (focus b) = true
    /\ toString (or_else (themeKeywords b) (JStr (js "none"))) = Ok th
    /\ extra_notes (extraNotes b) = Ok notes
    /\ contains th p /\ contains notes p.
Proof.
  unfold Part000.userPrompt, rbind, stringable.
  destruct (toString (genre b)) as [g|]; [|discriminate].
  destruct (toString (camera b)) as [c|]; [|discriminate].
  destruct (toString (stagePosition b)) as [s|]; [|discriminate].
  destruct (toString (playtime b)) as [t|]; [|discriminate].
  destruct (toString (difficulty b)) as [d|]; [|discriminate].
  destruct (toString (focus b)) as [f|]; [|discriminate].
  destruct (toString (or_else (themeKeywords b) (JStr (js "none"))))
    as [th|]; [|discriminate].
  destruct (extra_notes (extraNotes b)) as [notes|]; [|discriminate].
  intros H. apply Ok_inj in H. subst p. exists th, notes.
  do 8 (split; [reflexivity|]).
  trim_template. split; solve_contains.
Qed.

Lemma variant_prompt_inv (prompt : Body -> Z -> result jsstring) :
  ((forall b n, prompt b n = Part000.userPrompt b n)
   \/ (forall b n,
         prompt b n
         = (let? p := Part000.userPrompt b n in
            Ok (p ++ layout_paragraph))%result)) ->
  forall b n p,
    prompt b n = Ok p ->
    exists p0, Part000.userPrompt b n = Ok p0
               /\ forall x, contains x p0 -> contains x p.
Proof.
  intros [E | E] b n p; rewrite E.
  - intros H. exists p. split; [exact H|]. intros x X. exact X.
  - unfold rbind. destruct (Part000.userPrompt b n) as [p0|]; [|discriminate].
    intros H. apply Ok_inj in H. subst p. exists p0. split; [reflexivity|].
    intros x. apply contains_app_l.
Qed.

Lemma variant_prompt_throw (prompt : Body -> Z -> result jsstring) :
  ((forall b n, prompt b n = Part000.userPrompt b n)
   \/ (forall b n,
         prompt b n
         = (let? p := Part000.userPrompt b n in
            Ok (p ++ layout_paragraph))%result)) ->
  forall b n e, Part000.userPrompt b n = Throw e -> prompt b n = Throw e.
Proof.
  intros [E | E] b n e H; rewrite E, ?H; reflexivity.
Qed.

(** What is known of a call that a handler made. *)
Lemma forwarded_call h (fetch : Upstream) (b : Body) (c : OutboundCall) :
  variant h -> In c (snd (h fetch b)) ->
  exists sys k n p th notes,
    c = completion_call (trim k) sys p
    /\ snd (h fetch b) = [c]
    /\ apiKey b = JStr k /\ trim k <> []
    /\ fully_valid b = true
    /\ safeCount (count b) = Ok n
    /\ toString (or_else (themeKeywords b) (JStr (js "none"))) = Ok th
    /\ extra_notes (extraNotes b) = Ok notes
    /\ contains th p /\ contains notes p.
Proof.
  intros V I. destruct (variant_two_phase h V) as [sys [prompt [E PV]]].
  rewrite E in *. unfold two_phase, decide_request in *.
  destruct (key_blank (apiKey b)) as [[|]|] eqn:KB;
    cbn [snd] in I; try contradiction.
  destruct (key_blank_false _ KB) as [k [A [NE [KP TM]]]].
  destruct (required_present b) eqn:R; cbn [negb snd] in I |- *;
    try contradiction.
  destruct (safeCount (count b)) as [n|] eqn:C; cbn [snd] in I |- *;
    try contradiction.
  destruct (prompt b n) as [p|] eqn:P; cbn [snd] in I |- *;
    try contradiction.
  rewrite TM in *. cbn [snd] in I |- *. destruct I as [<- | []].
  destruct (variant_prompt_inv prompt PV b n p P) as [p0 [P0 M]].
  destruct (Part000_userPrompt_inv b n p0 P0)
    as [th [notes [G [Cm [S [T [D [F [TH [EN [X1 X2]]]]]]]]]]].
  exists sys, k, n, p, th, notes.
  assert (FV : fully_valid b = true).
  { unfold fully_valid. rewrite KP, R, G, Cm, S, T, D, F.
    rewrite (theme_inv _ _ TH), (extra_notes_inv _ _ EN).
    unfold safeCount, rbind in C. unfold stringable.
    destruct (toString (count b)); [reflexivity | discriminate]. }
  exact (conj eq_refl (conj eq_refl (conj A (conj NE (conj FV (conj eq_refl
          (conj TH (conj EN (conj (M _ X1) (M _ X2)))))))))).
Qed.

(** X7.  A handler calls the upstream exactly for the fully valid requests:
    credential and required fields present, every interpolated value with
    a string form, [extraNotes] falsy or a string.  Every other request is
    answered without a call. *)
Theorem call_iff_fully_valid h (fetch : Upstream) (b : Body) :
  variant h -> (snd (h fetch b) <> [] <-> fully_valid b = true).
Proof.
  intros V. split.
  - intros N. destruct (snd (h fetch b)) as [|c l] eqn:S;
      [contradiction N; reflexivity|].
    assert (I : In c (snd (h fetch b))) by (rewrite S; left; reflexivity).
    destruct (forwarded_call h fetch b c V I)
      as [_ [_ [_ [_ [_ [_ [_ [_ [_ [_ [FV _]]]]]]]]]]].
    exact FV.
  - intros FV.
    destruct (fully_valid_forward fetch b FV)
      as [k [n [pA [pB [_ [_ [_ [_ [_ [_ [_ [HA HB]]]]]]]]]]]].
    destruct V as [-> | ->]; [rewrite HA | rewrite HB]; discriminate.
Qed.

Lemma call_iff_fully_valid_witness :
  fully_valid sample_request = true
  /\ snd (ServerJs.handler
            (reply (mkFetchResponse true (Ok []) (Ok JNull))) sample_request)
     <> [].
Proof.
  split; [reflexivity|].
  apply (proj2 (call_iff_fully_valid ServerJs.handler
                  (reply (mkFetchResponse true (Ok []) (Ok JNull)))
                  sample_request (or_introl eq_refl))).
  reflexivity.
Defined.

(** X8.  The credential of an outbound call is never empty and has no
    whitespace at its ends: the Authorization header of every call made is
    "Bearer " followed by the trimmed [apiKey] of the request. *)
Theorem credential_trimmed h (fetch : Upstream) (b : Body) (c : OutboundCall) :
  variant h -> In c (snd (h fetch b)) ->
  exists k,
    apiKey b = JStr k
    /\ headers c = [(js "Authorization", js "Bearer " ++ trim k);
                    (js "Content-Type", js "application/json")]
    /\ trim k <> []
    /\ is_ws (hd 0%N (trim k)) = false
    /\ is_ws (last (trim k) 0%N) = false.
Proof.
  intros V I.
  destruct (forwarded_call h fetch b c V I)
    as [sys [k [n [p [th [notes [-> [_ [A [NE _]]]]]]]]]].
  exists k. split; [exact A|]. split; [reflexivity|].
  split; [exact NE|]. split; [|apply trim_last; exact NE].
  pose proof (trim_head k) as H.
  destruct (trim k); [contradiction NE; reflexivity | exact H].
Qed.

Lemma credential_trimmed_witness :
  exists k,
    apiKey sample_request = JStr k
    /\ trim k <> []
    /\ is_ws (hd 0%N (trim k)) = false
    /\ is_ws (last (trim k) 0%N) = false.
Proof.
  destruct (credential_trimmed Part000.handler
              (reply (mkFetchResponse true (Ok []) (Ok JNull)))
              sample_request
              (hd (completion_call [] [] [])
                  (snd (Part000.handler
                          (reply (mkFetchResponse true (Ok []) (Ok JNull)))
                          sample_request))))
    as [k [A [_ H]]].
  - right. reflexivity.
  - vm_compute. left. reflexivity.
  - exists k. split; [exact A | exact H].
Defined.

(* ------------------------------------------------------------------ *)
(** ** Whitespace, optional fields and unescaped interpolation *)

Lemma key_blank_trimmed (v : value) : key_blank (trimmed v) = key_blank v.
Proof.
  destruct v; try reflexivity. unfold trimmed, key_blank.
  cbn [truthy trim_method rbind]. rewrite trim_idem.
  destruct s as [|c s]; [reflexivity|].
  destruct (trim (c :: s)); reflexivity.
Qed.

Lemma trim_method_trimmed (name : jsstring) (v : value) :
  trim_method name (trimmed v) = trim_method name v.
Proof.
  destruct v; try reflexivity. cbn [trimmed trim_method].
  rewrite trim_idem. reflexivity.
Qed.

Lemma extra_notes_trimmed (v : value) :
  extra_notes (trimmed v) = extra_notes v.
Proof.
  destruct v; try reflexivity. unfold trimmed, extra_notes.
  cbn [truthy trim_method rbind]. rewrite trim_idem.
  destruct s as [|c s]; [reflexivity|].
  destruct (trim (c :: s)); reflexivity.
Qed.

Lemma Part000_userPrompt_trim_request (b : Body) (n : Z) :
  Part000.userPrompt (trim_request b) n = Part000.userPrompt b n.
Proof.
  unfold Part000.userPrompt, trim_request.
  cbn [genre camera stagePosition playtime difficulty focus themeKeywords
       extraNotes].
  rewrite extra_notes_trimmed. reflexivity.
Qed.

(** X9.  Whitespace around [apiKey] and around [extraNotes] does not
    count: the request with the two trimmed gets the same response and the
    same outbound call. *)
Theorem surrounding_whitespace_ignored h (fetch : Upstream) (b : Body) :
  variant h -> h fetch (trim_request b) = h fetch b.
Proof.
  intros V. destruct (variant_two_phase h V) as [sys [prompt [E PV]]].
  rewrite !E. unfold two_phase, decide_request.
  assert (P : forall n, prompt (trim_request b) n = prompt b n).
  { intros n. destruct PV as [PV | PV]; rewrite !PV;
      rewrite Part000_userPrompt_trim_request; reflexivity. }
  change (apiKey (trim_request b)) with (trimmed (apiKey b)).
  change (count (trim_request b)) with (count b).
  change (required_present (trim_request b)) with (required_present b).
  rewrite key_blank_trimmed, trim_method_trimmed.
  destruct (key_blank (apiKey b)) as [[|]|]; try reflexivity.
  destruct (negb (required_present b)); try reflexivity.
  destruct (safeCount (count b)) as [n|]; try reflexivity.
  rewrite P. reflexivity.
Qed.

Lemma surrounding_whitespace_ignored_witness :
  let fetch := reply (mkFetchResponse true (Ok [])
                        (Ok (envelope (JStr (js "## Level 1"))))) in
  ServerJs.handler fetch (trim_request sample_request)
  = ServerJs.handler fetch sample_request.
Proof.
  intros fetch. apply surrounding_whitespace_ignored. left. reflexivity.
Defined.

(** The user prompt of a call. *)
Lemma forwarded_prompt h (fetch : Upstream) (b : Body) (c : OutboundCall) :
  variant h -> In c (snd (h fetch b)) ->
  exists sys p th notes,
    messages (body c)
    = [mkMessage (js "system") sys; mkMessage (js "user") p]
    /\ toString (or_else (themeKeywords b) (JStr (js "none"))) = Ok th
    /\ extra_notes (extraNotes b) = Ok notes
    /\ contains th p /\ contains notes p.
Proof.
  intros V I.
  destruct (forwarded_call h fetch b c V I)
    as [sys [k [n [p [th [notes [-> [_ [_ [_ [_ [_ [TH [EN [X1 X2]]]]]]]]]]]]]]].
  exists sys, p, th, notes.
  exact (conj eq_refl (conj TH (conj EN (conj X1 X2)))).
Qed.

(** X10.  In the user prompt of every call made, a falsy [themeKeywords]
    (absent, [null], [false], zero or the empty string) is shown as "none",
    and a truthy one is shown by its string. *)
Theorem theme_keywords_in_prompt h (fetch : Upstream) (b : Body)
    (c : OutboundCall) :
  variant h -> In c (snd (h fetch b)) ->
  exists sys p,
    messages (body c)
    = [mkMessage (js "system") sys; mkMessage (js "user") p]
    /\ (truthy (themeKeywords b) = false -> contains (js "none") p)
    /\ (truthy (themeKeywords b) = true ->
        exists s, toString (themeKeywords b) = Ok s /\ contains s p).
Proof.
  intros V I.
  destruct (forwarded_prompt h fetch b c V I)
    as [sys [p [th [notes [M [TH [_ [X _]]]]]]]].
  exists sys, p. split; [exact M|]. unfold or_else in TH. split.
  - intros T. rewrite T in TH. cbn [toString] in TH.
    apply Ok_inj in TH. rewrite TH. exact X.
  - intros T. rewrite T in TH. exists th. split; [exact TH | exact X].
Qed.

Lemma theme_keywords_in_prompt_witness :
  let fetch := reply (mkFetchResponse true (Ok []) (Ok JNull)) in
  let themed :=
    mkBody (JStr (js "sk-test")) (JStr (js "Roguelike"))
           (JStr (js "Top-down")) (JStr (js "Mid")) (JStr (js "10 minutes"))
           (JStr (js "Hard")) (JStr (js "Combat"))
           (JStr (js "toy factory, neon")) (JNum 3) JUndefined in
  exists sys p,
    messages (body (hd (completion_call [] [] [])
                       (snd (ServerJs.handler fetch themed))))
    = [mkMessage (js "system") sys; mkMessage (js "user") p]
    /\ contains (js "toy factory, neon") p.
Proof.
  intros fetch themed.
  destruct (theme_keywords_in_prompt ServerJs.handler fetch themed
              (hd (completion_call [] [] [])
                  (snd (ServerJs.handler fetch themed))))
    as [sys [p [M [_ T]]]].
  - left. reflexivity.
  - vm_compute. left. reflexivity.
  - exists sys, p. split; [exact M|].
    destruct (T eq_refl) as [s [S X]].
    apply Ok_inj in S. rewrite S. exact X.
Defined.

(** X11.  In the user prompt of every call made, an [extraNotes] that is
    not blank is shown trimmed. *)
Theorem extra_notes_in_prompt h (fetch : Upstream) (b : Body)
    (c : OutboundCall) (s : jsstring) :
  variant h -> In c (snd (h fetch b)) ->
  extraNotes b = JStr s -> trim s <> [] ->
  exists sys p,
    messages (body c)
    = [mkMessage (js "system") sys; mkMessage (js "user") p]
    /\ contains (trim s) p.
Proof.
  intros V I E N.
  destruct (forwarded_prompt h fetch b c V I)
    as [sys [p [th [notes [M [_ [EN [_ X]]]]]]]].
  exists sys, p. split; [exact M|].
  rewrite E in EN. unfold extra_notes in EN.
  destruct s as [|u s]; [contradiction N; reflexivity|].
  cbn [truthy trim_method rbind] in EN.
  destruct (trim (u :: s)) as [|u' s'] eqn:T;
    [contradiction N; reflexivity|].
  cbn [List.length] in EN.
  replace (0 <? Z.of_nat (S (List.length s'))) with true in EN
    by (symmetry; apply Z.ltb_lt; lia).
  apply Ok_inj in EN. rewrite EN. exact X.
Qed.

Lemma extra_notes_in_prompt_witness :
  let fetch := reply (mkFetchResponse true (Ok []) (Ok JNull)) in
  let noted :=
    mkBody (JStr (js "sk-test")) (JStr (js "Roguelike"))
           (JStr (js "Top-down")) (JStr (js "Mid")) (JStr (js "10 minutes"))
           (JStr (js "Hard")) (JStr (js "Combat")) JUndefined (JNum 3)
           (JStr (js "  keep it short  ")) in
  exists sys p,
    messages (body (hd (completion_call [] [] [])
                       (snd (Part000.handler fetch noted))))
    = [mkMessage (js "system") sys; mkMessage (js "user") p]
    /\ contains (js "keep it short") p.
Proof.
  intros fetch noted.
  refine (extra_notes_in_prompt Part000.handler fetch noted
            (hd (completion_call [] [] [])
                (snd (Part000.handler fetch noted)))
            (js "  keep it short  ") _ _ _ _).
  - right. reflexivity.
  - vm_compute. left. reflexivity.
  - reflexivity.
  - vm_compute. discriminate.
Defined.

(* ------------------------------------------------------------------ *)
(** ** Counts written as text *)










(* ------------------------------------------------------------------ *)
(** ** Values outside the data model *)

Lemma Part000_userPrompt_unstringable (b : Body) (n : Z) :
  stringable (genre b) && stringable (camera b)
  && stringable (stagePosition b) && stringable (playtime b)
  && stringable (difficulty b) && stringable (focus b) = false ->
  Part000.userPrompt b n = Throw no_primitive.
Proof.
  unfold Part000.userPrompt, rbind, stringable.
  destruct (toString (genre b)) as [g|e] eqn:E1;
    [|intros _; rewrite (toString_throw _ _ E1); reflexivity].
  destruct (toString (camera b)) as [c|e] eqn:E2;
    [|intros _; rewrite (toString_throw _ _ E2); reflexivity].
  destruct (toString (stagePosition b)) as [s|e] eqn:E3;
    [|intros _; rewrite (toString_throw _ _ E3); reflexivity].
  destruct (toString (playtime b)) as [t|e] eqn:E4;
    [|intros _; rewrite (toString_throw _ _ E4); reflexivity].
  destruct (toString (difficulty b)) as [d|e] eqn:E5;
    [|intros _; rewrite (toString_throw _ _ E5); reflexivity].
  destruct (toString (focus b)) as [f|e] eqn:E6;
    [|intros _; rewrite (toString_throw _ _ E6); reflexivity].
  discriminate.
Qed.

(** X13.  A required field that is present but has no string form (an
    object that the JSON body gave an own [toString] member, or an array
    holding one) is not reported as a missing field: the conversion throws
    and the response is the 500 of the [catch] clause, with no outbound
    call. *)
Theorem unstringable_field_server_error h (fetch : Upstream) (b : Body) :
  variant h ->
  key_present (apiKey b) = true -> required_present b = true ->
  stringable (count b) && stringable (genre b) && stringable (camera b)
  && stringable (stagePosition b) && stringable (playtime b)
  && stringable (difficulty b) && stringable (focus b) = false ->
  h fetch b
  = (mkResponse 500
       (JObj [(js "error", JStr (js "Server error"));
              (js "detail",
               JStr (js "Cannot convert object to primitive value"))]),
     []).
Proof.
  intros V K R U. destruct (variant_two_phase h V) as [sys [prompt [E PV]]].
  rewrite E. unfold two_phase, decide_request.
  rewrite (key_blank_present _ K), R. cbn [negb].
  destruct (stringable (count b)) eqn:C.
  - unfold stringable in C. unfold safeCount, rbind.
    destruct (toString (count b)) as [cs|]; [|discriminate C].
    rewrite !andb_true_l in U.
    rewrite (variant_prompt_throw prompt PV b _ _
               (Part000_userPrompt_unstringable b _ U)).
    reflexivity.
  - unfold safeCount, rbind. rewrite (stringable_false _ C). reflexivity.
Qed.

Lemma unstringable_field_server_error_witness :
  let odd :=
    mkBody (JStr (js "sk-test"))
           (JObj [(js "toString", JStr (js "Roguelike"))])
           (JStr (js "Top-down")) (JStr (js "Mid")) (JStr (js "10 minutes"))
           (JStr (js "Hard")) (JStr (js "Combat")) JUndefined (JNum 3)
           JUndefined in
  snd (ServerJs.handler (reply (mkFetchResponse true (Ok []) (Ok JNull))) odd)
  = [].
Proof.
  intros odd.
  refine (f_equal snd
            (unstringable_field_server_error ServerJs.handler _ odd _ _ _ _)).
  - left. reflexivity.
  - reflexivity.
  - reflexivity.
  - reflexivity.
Defined.

Lemma extra_notes_not_string (v : value) :
  truthy v = true -> is_string v = false ->
  extra_notes v
  = Throw (TypeError (js "extraNotes" ++ js ".trim is not a function")).
Proof.
  intros T S. unfold extra_notes. rewrite T.
  destruct v; try discriminate; reflexivity.
Qed.

Lemma Part000_userPrompt_notes_throw (b : Body) (n : Z) (e : exn) :
  stringable (genre b) && stringable (camera b)
  && stringable (stagePosition b) && stringable (playtime b)
  && stringable (difficulty b) && stringable (focus b)
  && stringable (themeKeywords b) = true ->
  extra_notes (extraNotes b) = Throw e ->
  Part000.userPrompt b n = Throw e.
Proof.
  rewrite !andb_true_iff. intros [[[[[[G C] S] T] D] F] K] N.
  destruct (theme_total _ K) as [th [K1 _]].
  unfold stringable in G, C, S, T, D, F.
  unfold Part000.userPrompt, rbind. rewrite K1, N.
  destruct (toString (genre b)); [|discriminate].
  destruct (toString (camera b)); [|discriminate].
  destruct (toString (stagePosition b)); [|discriminate].
  destruct (toString (playtime b)); [|discriminate].
  destruct (toString (difficulty b)); [|discriminate].
  destruct (toString (focus b)); [|discriminate].
  reflexivity.
Qed.

(** X14.  An [extraNotes] that is truthy but not a string (a number,
    [true], an array, an object) in a request that is otherwise fully
    valid is not ignored and not defaulted: [.trim()] throws and the
    response is the 500 of the [catch] clause, with no outbound call. *)
Theorem non_string_extraNotes_server_error h (fetch : Upstream) (b : Body) :
  variant h ->
  key_present (apiKey b) = true -> required_present b = true ->
  stringable (count b) = true ->
  stringable (genre b) && stringable (camera b)
  && stringable (stagePosition b) && stringable (playtime b)
  && stringable (difficulty b) && stringable (focus b)
  && stringable (themeKeywords b) = true ->
  truthy (extraNotes b) = true -> is_string (extraNotes b) = false ->
  h fetch b
  = (mkResponse 500
       (JObj [(js "error", JStr (js "Server error"));
              (js "detail", JStr (js "extraNotes.trim is not a function"))]),
     []).
Proof.
  intros V K R C U T S.
  destruct (variant_two_phase h V) as [sys [prompt [E PV]]].
  rewrite E. unfold two_phase, decide_request.
  rewrite (key_blank_present _ K), R. cbn [negb].
  destruct (safeCount_total _ C) as [n [-> _]].
  rewrite (variant_prompt_throw prompt PV b n _
             (Part000_userPrompt_notes_throw b n _ U
                (extra_notes_not_string _ T S))).
  unfold server_error. cbn [exn_message].
  replace (js "extraNotes" ++ js ".trim is not a function")
    with (js "extraNotes.trim is not a function")
    by (vm_compute; reflexivity).
  reflexivity.
Qed.

Lemma non_string_extraNotes_server_error_witness :
  let listed :=
    mkBody (JStr (js "sk-test")) (JStr (js "Roguelike"))
           (JStr (js "Top-down")) (JStr (js "Mid")) (JStr (js "10 minutes"))
           (JStr (js "Hard")) (JStr (js "Combat")) JUndefined (JNum 3)
           (JArr [JStr (js "no bosses")]) in
  snd (Part000.handler (reply (mkFetchResponse true (Ok []) (Ok JNull)))
         listed)
  = [].
Proof.
  intros listed.
  refine (f_equal snd
            (non_string_extraNotes_server_error Part000.handler _ listed
               _ _ _ _ _ _ _)).
  - right. reflexivity.
  - reflexivity.
  - reflexivity.
  - reflexivity.
  - reflexivity.
  - reflexivity.
  - reflexivity.
Defined.

(* ------------------------------------------------------------------ *)
(** ** Interpolation is not escaped *)

Lemma Part000_userPrompt_boundary (b : Body) (n : Z) (g c1 c2 : jsstring) :
  Part000.userPrompt
    (with_genre_camera b (JStr (g ++ js "
- Camera: " ++ c1)) (JStr c2)) n
  = Part000.userPrompt
      (with_genre_camera b (JStr g) (JStr (c1 ++ js "
- Camera: " ++ c2))) n.
Proof.
  unfold Part000.userPrompt, with_genre_camera, rbind.
  cbn [genre camera stagePosition playtime difficulty focus themeKeywords
       extraNotes toString].
  destruct (toString (stagePosition b)); [|reflexivity].
  destruct (toString (playtime b)); [|reflexivity].
  destruct (toString (difficulty b)); [|reflexivity].
  destruct (toString (focus b)); [|reflexivity].
  destruct (toString (or_else (themeKeywords b) (JStr (js "none"))));
    [|reflexivity].
  destruct (extra_notes (extraNotes b)); [|reflexivity].
  f_equal. f_equal. f_equal. f_equal.
  hide_chunks. intros. rewrite <- !app_assoc. reflexivity.
Qed.

(** X15.  The fields are interpolated without escaping, so the prompt does
    not keep them apart: a genre that ends with a line "- Camera: c1",
    with the camera c2, gets the same outbound call and the same response
    as the genre without that line with the camera "c1", a line break,
    "- Camera: c2". *)
Theorem field_boundary_forged h (fetch : Upstream) (b : Body)
    (g c1 c2 : jsstring) :
  variant h ->
  g <> [] -> c2 <> [] ->
  h fetch (with_genre_camera b (JStr (g ++ js "
- Camera: " ++ c1)) (JStr c2))
  = h fetch (with_genre_camera b (JStr g) (JStr (c1 ++ js "
- Camera: " ++ c2))).
Proof.
  intros V G C. destruct (variant_two_phase h V) as [sys [prompt [E PV]]].
  rewrite !E. unfold two_phase, decide_request.
  assert (P : forall n,
             prompt (with_genre_camera b (JStr (g ++ js "
- Camera: " ++ c1)) (JStr c2)) n
             = prompt (with_genre_camera b (JStr g) (JStr (c1 ++ js "
- Camera: " ++ c2))) n).
  { intros n. destruct PV as [PV | PV]; rewrite !PV;
      rewrite Part000_userPrompt_boundary; reflexivity. }
  assert (R : required_present
                (with_genre_camera b (JStr (g ++ js "
- Camera: " ++ c1)) (JStr c2))
              = required_present
                  (with_genre_camera b (JStr g) (JStr (c1 ++ js "
- Camera: " ++ c2)))).
  { unfold required_present, with_genre_camera.
    cbn [genre camera stagePosition playtime difficulty focus count truthy].
    destruct g as [|x g]; [contradiction G; reflexivity|].
    destruct c2 as [|y c2]; [contradiction C; reflexivity|].
    destruct c1; reflexivity. }
  rewrite R.
  change (apiKey (with_genre_camera b (JStr (g ++ js "
- Camera: " ++ c1)) (JStr c2))) with (apiKey b).
  change (apiKey (with_genre_camera b (JStr g) (JStr (c1 ++ js "
- Camera: " ++ c2)))) with (apiKey b).
  change (count (with_genre_camera b (JStr (g ++ js "
- Camera: " ++ c1)) (JStr c2))) with (count b).
  change (count (with_genre_camera b (JStr g) (JStr (c1 ++ js "
- Camera: " ++ c2)))) with (count b).
  destruct (key_blank (apiKey b)) as [[|]|]; try reflexivity.
  destruct (negb _); try reflexivity.
  destruct (safeCount (count b)) as [n|]; try reflexivity.
  rewrite P. reflexivity.
Qed.

Lemma field_boundary_forged_witness :
  let fetch := reply (mkFetchResponse true (Ok []) (Ok JNull)) in
  ServerJs.handler fetch
    (with_genre_camera sample_request
       (JStr (js "Roguelike" ++ js "
- Camera: " ++ js "Side view")) (JStr (js "Top-down")))
  = ServerJs.handler fetch
      (with_genre_camera sample_request
         (JStr (js "Roguelike"))
         (JStr (js "Side view" ++ js "
- Camera: " ++ js "Top-down"))).
Proof.
  intros fetch.
  apply (field_boundary_forged ServerJs.handler fetch sample_request
           (js "Roguelike") (js "Side view") (js "Top-down")).
  - left. reflexivity.
  - vm_compute. discriminate.
  - vm_compute. discriminate.
Defined.

(* ------------------------------------------------------------------ *)
(** ** The head of the prompt *)

Lemma Part000_userPrompt_head (b : Body) (n : Z) (p : jsstring) :
  Part000.userPrompt b n = Ok p ->
  exists rest,
    p = js "Generate " ++ Z_toString n ++ js " level blueprints." ++ rest.
Proof.
  unfold Part000.userPrompt, rbind.
  destruct (toString (genre b)) as [g|]; [|discriminate].
  destruct (toString (camera b)) as [c|]; [|discriminate].
  destruct (toString (stagePosition b)) as [s|]; [|discriminate].
  destruct (toString (playtime b)) as [t|]; [|discriminate].
  destruct (toString (difficulty b)) as [d|]; [|discriminate].
  destruct (toString (focus b)) as [f|]; [|discriminate].
  destruct (toString (or_else (themeKeywords b) (JStr (js "none"))))
    as [th|]; [|discriminate].
  destruct (extra_notes (extraNotes b)) as [notes|]; [|discriminate].
  intros H. apply Ok_inj in H. subst p. trim_template.
  match goal with
  | |- exists rest, trimStart ?c0 ++ _ ++ ?c1 ++ ?r = _ =>
    set (tail := skipn 18 c1);
    assert (E0 : trimStart c0 = js "Generate ") by (vm_compute; reflexivity);
    assert (E1 : c1 = js " level blueprints." ++ tail)
      by (vm_compute; reflexivity);
    exists (tail ++ r); rewrite E0, E1, <- app_assoc; reflexivity
  end.
Qed.

Lemma forwarded_prompt_head h (fetch : Upstream) (b : Body)
    (c : OutboundCall) :
  variant h -> In c (snd (h fetch b)) ->
  exists sys k n rest,
    safeCount (count b) = Ok n
    /\ c = completion_call k sys
             (js "Generate " ++ Z_toString n ++ js " level blueprints."
              ++ rest).
Proof.
  intros V I. destruct (variant_two_phase h V) as [sys [prompt [E PV]]].
  rewrite E in *. unfold two_phase, decide_request in *.
  destruct (key_blank (apiKey b)) as [[|]|] eqn:KB;
    cbn [snd] in I; try contradiction.
  destruct (negb (required_present b)); cbn [snd] in I; try contradiction.
  destruct (safeCount (count b)) as [n|] eqn:C; cbn [snd] in I;
    try contradiction.
  destruct (prompt b n) as [p|] eqn:P; cbn [snd] in I; try contradiction.
  destruct (trim_method (js "apiKey") (apiKey b)) as [k|]; cbn [snd] in I;
    try contradiction.
  destruct I as [<- | []].
  exists sys, k, n.
  destruct PV as [PV | PV]; rewrite PV in P.
  - destruct (Part000_userPrompt_head b n p P) as [rest ->].
    exists rest. split; reflexivity.
  - unfold rbind in P.
    destruct (Part000.userPrompt b n) as [p0|] eqn:P0; [|discriminate].
    apply Ok_inj in P. subst p.
    destruct (Part000_userPrompt_head b n p0 P0) as [rest ->].
    exists (rest ++ layout_paragraph). split; [reflexivity|].
    rewrite <- !app_assoc. reflexivity.
Qed.

(** X16.  The user prompt of every call made starts with
    "Generate n level blueprints.", n being the normalized count, between
    1 and 10: text given in a field comes after this request and cannot
    take its place. *)
Theorem prompt_starts_with_count h (fetch : Upstream) (b : Body)
    (c : OutboundCall) :
  variant h -> In c (snd (h fetch b)) ->
  exists sys n rest,
    safeCount (count b) = Ok n /\ 1 <= n <= 10
    /\ messages (body c)
       = [mkMessage (js "system") sys;
          mkMessage (js "user")
            (js "Generate " ++ Z_toString n ++ js " level blueprints."
             ++ rest)].
Proof.
  intros V I.
  destruct (forwarded_prompt_head h fetch b c V I)
    as [sys [k [n [rest [C ->]]]]].
  exists sys, n, rest.
  exact (conj C (conj (safeCount_range _ _ C) eq_refl)).
Qed.

Lemma prompt_starts_with_count_witness :
  let fetch := reply (mkFetchResponse true (Ok []) (Ok JNull)) in
  exists sys n rest,
    safeCount (count sample_request) = Ok n /\ 1 <= n <= 10
    /\ messages (body (hd (completion_call [] [] [])
                          (snd (ServerJs.handler fetch sample_request))))
       = [mkMessage (js "system") sys;
          mkMessage (js "user")
            (js "Generate " ++ Z_toString n ++ js " level blueprints."
             ++ rest)].
Proof.
  intros fetch.
  apply (prompt_starts_with_count ServerJs.handler fetch sample_request).
  - left. reflexivity.
  - vm_compute. left. reflexivity.
Defined.
